(** * Verification of the deterministic (no-LLM) extraction and
      reconciliation pipeline of citi_financial_analysis.

    The development embeds these functions of the Python sources:

      - [utils.py] (module [Utils]): [find_quarter_year_from_filename],
        [is_loosely_contained_nltk_no_punctuation],
        [get_edit_distance_score], [strip_trailing_numbers];
      - [excel_reader_no_llm.py] (module [ExcelReader]):
        [detect_header_rows], [find_column_index_for_quarter_year],
        [get_metrics_from_df], [get_metrics_values_from_excel];
      - [pdf_reader_no_llm.py] (module [PdfReader]): the selection of
        one value per metric in [get_metrics_values_from_pdf], from the
        extracted observations to the returned records;
      - [main.py] (module [Main]): [compare_values] with its helper
        [is_within_tolerance];

    together with the fragments of the Python runtime and of pandas
    they rely on ([PyStr]: str methods, [Regex]: the backtracking [re]
    engine, [PyFloat]: binary64 floats and [float()] literals, [Dict]:
    insertion-ordered dictionaries; the pandas calls are modelled where
    they are used).

    Python [str] values are modelled as Rocq strings, i.e. sequences of
    8-bit characters; character classes follow Python on the ASCII range.
    Python floats are the kernel's binary64 floats. *)

From Stdlib Require Import ZArith List String Ascii Bool Lia Floats Uint63.
From stdpp Require Import base list strings gmap sorting.
Import ListNotations.
Open Scope string_scope.
Set Warnings "-inexact-float".

(* ================================================================== *)
(** ** Python strings *)

Module PyStr.

Definition code (c : ascii) : nat := nat_of_ascii c.

Definition between (lo hi n : nat) : bool := Nat.leb lo n && Nat.leb n hi.

(** [str.isspace] on one character: TAB..CR, FS..US and SPACE. *)
Definition isspace (c : ascii) : bool :=
  between 9 13 (code c) || between 28 32 (code c).

Definition isdigit (c : ascii) : bool := between 48 57 (code c).
Definition isupper (c : ascii) : bool := between 65 90 (code c).
Definition islower (c : ascii) : bool := between 97 122 (code c).
Definition isalnum (c : ascii) : bool := isdigit c || isupper c || islower c.

(** The regex class [\w]. *)
Definition isword (c : ascii) : bool := isalnum c || Ascii.eqb c "_".

Definition lower_char (c : ascii) : ascii :=
  if isupper c then ascii_of_nat (code c + 32) else c.

Definition upper_char (c : ascii) : ascii :=
  if islower c then ascii_of_nat (code c - 32) else c.

Definition chars (s : string) : list ascii := list_ascii_of_string s.
Definition str (l : list ascii) : string := string_of_list_ascii l.

Definition lower (s : string) : string := str (map lower_char (chars s)).
Definition upper (s : string) : string := str (map upper_char (chars s)).

Fixpoint lstrip_chars (l : list ascii) : list ascii :=
  match l with
  | c :: l' => if isspace c then lstrip_chars l' else l
  | [] => []
  end.

Definition rstrip_chars (l : list ascii) : list ascii :=
  rev (lstrip_chars (rev l)).

(** [s.strip()] *)
Definition strip (s : string) : string :=
  str (rstrip_chars (lstrip_chars (chars s))).

(** [s.split()]: maximal runs of non-blank characters. [cur] is the
    token being read, most recent character first. *)
Fixpoint split_chars (l cur : list ascii) : list (list ascii) :=
  match l with
  | [] => match cur with [] => [] | _ => [rev cur] end
  | c :: l' =>
      if isspace c
      then match cur with
           | [] => split_chars l' []
           | _ => rev cur :: split_chars l' []
           end
      else split_chars l' (c :: cur)
  end.

Definition split (s : string) : list string :=
  map str (split_chars (chars s) []).

(** [sep.join(parts)] *)
Definition join (sep : string) (parts : list string) : string :=
  String.concat sep parts.

(** [sub in s] *)
Fixpoint contains (sub s : string) : bool :=
  String.prefix sub s ||
  match s with
  | EmptyString => false
  | String _ s' => contains sub s'
  end.

(** Truthiness of a string: non-empty. *)
Definition truthy (s : string) : bool :=
  match s with EmptyString => false | _ => true end.

(** [set(list(s))] *)
Definition char_set (s : string) : gset ascii := list_to_set (chars s).

End PyStr.

(* ================================================================== *)
(** ** A backtracking regular-expression matcher

    The fragment of Python's [re] used by the sources: character
    classes, concatenation, ordered alternation, greedy [?], lazy [*?]
    and named groups, with [re]'s priorities (leftmost start, then the
    first alternative that lets the rest of the pattern match). *)

Module Regex.

Inductive re : Type :=
| Eps
| Cls (p : ascii -> bool)
| Seq (r1 r2 : re)
| Alt (r1 r2 : re)
| Opt (r : re)
| Star (r : re)
| LazyStar (r : re)
| Grp (name : string) (r : re).

Definition captures : Type := list (string * string).

(** [run r s caps k]: match [r] at the start of [s], then continue with
    [k] on what is left; [None] makes the matcher backtrack. A starred
    body must consume a character on every round, as in [re]. *)
Fixpoint run {A : Type} (r : re) (s : list ascii) (caps : captures)
    (k : list ascii -> captures -> option A) {struct r} : option A :=
  match r with
  | Eps => k s caps
  | Cls p =>
      match s with
      | c :: s' => if p c then k s' caps else None
      | [] => None
      end
  | Seq r1 r2 => run r1 s caps (fun s' caps' => run r2 s' caps' k)
  | Alt r1 r2 =>
      match run r1 s caps k with
      | Some x => Some x
      | None => run r2 s caps k
      end
  | Opt r1 =>
      match run r1 s caps k with
      | Some x => Some x
      | None => k s caps
      end
  | Star r1 =>
      (fix loop (n : nat) (s : list ascii) (caps : captures) : option A :=
         let more :=
           match n with
           | O => None
           | S n' =>
               run r1 s caps (fun s' caps' =>
                 if Nat.ltb (length s') (length s) then loop n' s' caps'
                 else None)
           end in
         match more with
         | Some x => Some x
         | None => k s caps
         end) (length s) s caps
  | LazyStar r1 =>
      (fix loop (n : nat) (s : list ascii) (caps : captures) : option A :=
         match k s caps with
         | Some x => Some x
         | None =>
             match n with
             | O => None
             | S n' =>
                 run r1 s caps (fun s' caps' =>
                   if Nat.ltb (length s') (length s) then loop n' s' caps'
                   else None)
             end
         end) (length s) s caps
  | Grp name r1 =>
      run r1 s caps (fun s' caps' =>
        k s' ((name, PyStr.str (firstn (length s - length s') s)) :: caps'))
  end.

(** [re.match]: anchored at the start. *)
Definition match_at (r : re) (s : list ascii) : option captures :=
  run r s [] (fun _ caps => Some caps).

(** [re.fullmatch]: anchored at both ends. *)
Definition fullmatch (r : re) (s : string) : bool :=
  match run r (PyStr.chars s) []
          (fun s' caps => match s' with [] => Some caps | _ => None end) with
  | Some _ => true
  | None => false
  end.

(** [re.search]: the leftmost start position that matches. *)
Fixpoint search_chars (r : re) (s : list ascii) : option captures :=
  match match_at r s with
  | Some caps => Some caps
  | None =>
      match s with
      | [] => None
      | _ :: s' => search_chars r s'
      end
  end.

Definition search (r : re) (s : string) : option captures :=
  search_chars r (PyStr.chars s).

(** [match.group(name)]; [None] when the group took no part. *)
Fixpoint group (name : string) (caps : captures) : option string :=
  match caps with
  | [] => None
  | (n, v) :: caps' => if String.eqb n name then Some v else group name caps'
  end.

(** Pattern builders. All patterns of the sources are compiled with
    [re.IGNORECASE], so a literal letter matches in either case. *)
Definition seq (rs : list re) : re := fold_right Seq Eps rs.

Definition ci (c : ascii) : re :=
  Cls (fun x => Ascii.eqb (PyStr.lower_char x) (PyStr.lower_char c)).

Definition lit (s : string) : re := seq (map ci (PyStr.chars s)).

Definition one_of (s : string) : re :=
  Cls (fun x => existsb (Ascii.eqb x) (PyStr.chars s)).

Definition range (lo hi : ascii) : re :=
  Cls (fun x => PyStr.between (PyStr.code lo) (PyStr.code hi) (PyStr.code x)).

(** [\d] *)
Definition digit : re := Cls PyStr.isdigit.

(** [.]: any character but a newline. *)
Definition any : re := Cls (fun x => negb (Ascii.eqb x "010"%char)).

(** [\s*] *)
Definition spaces : re := Star (Cls PyStr.isspace).

(** [r{n}] *)
Fixpoint rep (n : nat) (r : re) : re :=
  match n with
  | O => Eps
  | S n' => Seq r (rep n' r)
  end.

End Regex.

(* ================================================================== *)
(** ** Python floats *)

Module PyFloat.

Definition of_nat (n : nat) : float :=
  PrimFloat.of_uint63 (Uint63.of_Z (Z.of_nat n)).

(** [a / b] on floats raises [ZeroDivisionError] when [b == 0]. *)
Definition truediv (a b : float) : option float :=
  if PrimFloat.eqb b 0 then None else Some (PrimFloat.div a b).

(** [math.isnan]: a NaN is the only float that differs from itself. *)
Definition is_nan (x : float) : bool := negb (PrimFloat.eqb x x).

(** The literals [float()] accepts, blanks already stripped:
    [sign? (digitpart? "." digitpart? exponent? | "inf" | "infinity" | "nan")]
    where a digitpart is digits with single underscores between them. *)
Fixpoint digitpart_tail (s : list ascii) : list ascii :=
  match s with
  | c :: s' =>
      if PyStr.isdigit c then digitpart_tail s'
      else if Ascii.eqb c "_" then
        match s' with
        | d :: s'' => if PyStr.isdigit d then digitpart_tail s'' else s
        | [] => s
        end
      else s
  | [] => []
  end.

Definition digitpart (s : list ascii) : option (list ascii) :=
  match s with
  | c :: s' => if PyStr.isdigit c then Some (digitpart_tail s') else None
  | [] => None
  end.

Definition skip_sign (s : list ascii) : list ascii :=
  match s with
  | c :: s' => if Ascii.eqb c "+" || Ascii.eqb c "-" then s' else s
  | [] => []
  end.

Definition at_end (o : option (list ascii)) : bool :=
  match o with Some [] => true | _ => false end.

Definition exponent_opt (s : list ascii) : option (list ascii) :=
  match s with
  | c :: s' =>
      if Ascii.eqb (PyStr.lower_char c) "e" then digitpart (skip_sign s')
      else Some s
  | [] => Some []
  end.

Definition floatnumber (s : list ascii) : bool :=
  match digitpart s with
  | Some r =>
      match r with
      | c :: r' =>
          if Ascii.eqb c "."
          then at_end (exponent_opt (default r' (digitpart r')))
          else at_end (exponent_opt r)
      | [] => true
      end
  | None =>
      match s with
      | c :: r' =>
          if Ascii.eqb c "."
          then match digitpart r' with
               | Some r2 => at_end (exponent_opt r2)
               | None => false
               end
          else false
      | [] => false
      end
  end.

(** [float(token)] does not raise [ValueError]. *)
Definition parses (token : string) : bool :=
  let body := skip_sign (PyStr.chars token) in
  let word := PyStr.str (map PyStr.lower_char body) in
  floatnumber body
  || String.eqb word "inf" || String.eqb word "infinity" || String.eqb word "nan".

End PyFloat.

(* ================================================================== *)
(** ** utils.py *)

Module Utils.
Import Regex.

(** [re.sub(r'[^\w\s]', '', text)] *)
Definition remove_punctuation (text : string) : string :=
  PyStr.str (List.filter (fun c => PyStr.isword c || PyStr.isspace c)
                         (PyStr.chars text)).

Definition is_loosely_contained_nltk_no_punctuation (substr text : string)
  : bool :=
  let text_nopunct := remove_punctuation text in
  let substr_nopunct := remove_punctuation substr in
  PyStr.contains substr_nopunct text_nopunct.

(** [rapidfuzz.distance.Levenshtein.distance] with unit weights: the
    Wagner-Fischer table, one row per character of the first string.
    [next_row a t up diag left] fills the row of [a] from the row above
    ([up], from the second column on), [diag] and [left] being the
    cells above-left and left of the one computed. *)
Fixpoint next_row (a : ascii) (t : list ascii) (up : list nat)
    (diag left : nat) : list nat :=
  match t, up with
  | b :: t', u :: up' =>
      let v := Nat.min (Nat.min (u + 1) (left + 1))
                       (diag + if Ascii.eqb a b then 0 else 1) in
      v :: next_row a t' up' u v
  | _, _ => []
  end.

Fixpoint lev_rows (s t : list ascii) (row : list nat) : list nat :=
  match s with
  | [] => row
  | a :: s' =>
      match row with
      | d0 :: rest => lev_rows s' t ((d0 + 1) :: next_row a t rest d0 (d0 + 1))
      | [] => []
      end
  end.

Definition levenshtein (s1 s2 : string) : nat :=
  let t := PyStr.chars s2 in
  List.last (lev_rows (PyStr.chars s1) t (List.seq 0 (S (length t)))) 0.

Definition get_edit_distance_score (str1 str2 : string) : float :=
  let dist := levenshtein str1 str2 in
  let max_len := Nat.max (String.length str1) (String.length str2) in
  if Nat.eqb max_len 0
  then (if Nat.eqb dist 0 then 100 else 0)%float
  else (100 * (1 - PyFloat.of_nat dist / PyFloat.of_nat max_len))%float.

(** [while parts and is_numeric_token(parts[-1]): parts.pop()], read on
    the reversed token list. *)
Fixpoint pop_numeric (rev_parts : list string) : list string :=
  match rev_parts with
  | tok :: rest => if PyFloat.parses tok then pop_numeric rest else rev_parts
  | [] => []
  end.

Definition strip_trailing_numbers (text : string) : string :=
  let parts := PyStr.split text in
  PyStr.join " " (rev (pop_numeric (rev parts))).

(** The nine filename patterns, in the order of the source list. *)
Definition patterns : list re :=
  [ (* 1: (?P<year>\d{4}).*?[qQ][tT]?[rR]?[-_]?(?P<q>[1-4]) *)
    seq [Grp "year" (rep 4 digit); LazyStar any; one_of "qQ";
         Opt (one_of "tT"); Opt (one_of "rR"); Opt (one_of "-_");
         Grp "q" (range "1" "4")];
    (* 2: [fF][yY].*?(?P<year>\d{4}).*?[qQ][tT]?[rR]?[-_]?(?P<q>[1-4]) *)
    seq [one_of "fF"; one_of "yY"; LazyStar any; Grp "year" (rep 4 digit);
         LazyStar any; one_of "qQ"; Opt (one_of "tT"); Opt (one_of "rR");
         Opt (one_of "-_"); Grp "q" (range "1" "4")];
    (* 3: [qQ][tT]?[rR]?[-_]?(?P<q>[1-4]).*?(?P<year>\d{4}) *)
    seq [one_of "qQ"; Opt (one_of "tT"); Opt (one_of "rR");
         Opt (one_of "-_"); Grp "q" (range "1" "4"); LazyStar any;
         Grp "year" (rep 4 digit)];
    (* 4: (?:quarter|qtr|q)\s*(?P<q>[1-4]).*?(?P<year>\d{4}) *)
    seq [Alt (lit "quarter") (Alt (lit "qtr") (lit "q")); spaces;
         Grp "q" (range "1" "4"); LazyStar any; Grp "year" (rep 4 digit)];
    (* 5: (?P<year>\d{4}).*?[qQ].*?(?P<q>[1-4]) *)
    seq [Grp "year" (rep 4 digit); LazyStar any; one_of "qQ"; LazyStar any;
         Grp "q" (range "1" "4")];
    (* 6: [qQ].*?(?P<q>[1-4]).*?(?P<year>\d{4}) *)
    seq [one_of "qQ"; LazyStar any; Grp "q" (range "1" "4"); LazyStar any;
         Grp "year" (rep 4 digit)];
    (* 7: (?P<q>[1-4])[qQ][tT][rR].*?(?P<year2>\d{2}) *)
    seq [Grp "q" (range "1" "4"); one_of "qQ"; one_of "tT"; one_of "rR";
         LazyStar any; Grp "year2" (rep 2 digit)];
    (* 8: (?P<year>\d{4})[qQ][tT][rR].*?(?P<q>[1-4]) *)
    seq [Grp "year" (rep 4 digit); one_of "qQ"; one_of "tT"; one_of "rR";
         LazyStar any; Grp "q" (range "1" "4")];
    (* 9: (?P<q>[1-4])[qQ](?P<year2>\d{2}) *)
    seq [Grp "q" (range "1" "4"); one_of "qQ"; Grp "year2" (rep 2 digit)] ].

Definition valid_quarter (quarter_num : string) : bool :=
  existsb (String.eqb quarter_num) ["1"; "2"; "3"; "4"].

(** The year of a match: a non-empty [year2] group is expanded to the
    21st century, else a non-empty [year] group is taken as it is. *)
Definition year_of (caps : captures) : option string :=
  match group "year2" caps with
  | Some y2 =>
      if PyStr.truthy y2 then Some ("20" ++ y2)
      else match group "year" caps with
           | Some y => if PyStr.truthy y then Some y else None
           | None => None
           end
  | None =>
      match group "year" caps with
      | Some y => if PyStr.truthy y then Some y else None
      | None => None
      end
  end.

(** What one pattern contributes: [None] when the loop goes on to the
    next pattern (no match, or a quarter digit that fails validation).
    Every pattern of the list declares the group [q], so
    [match.group('q')] is a string whenever there is a match. *)
Definition try_pattern (p : re) (filename : string)
  : option (string * option string) :=
  match search p filename with
  | None => None
  | Some caps =>
      let quarter_num := default "" (group "q" caps) in
      let quarter := "Q" ++ quarter_num in
      let year := year_of caps in
      if valid_quarter quarter_num then Some (quarter, year) else None
  end.

(** The [for idx, pattern in enumerate(patterns, 1)] loop. *)
Fixpoint resolve (ps : list re) (filename : string)
  : option string * option string :=
  match ps with
  | [] => (None, None)
  | p :: ps' =>
      match try_pattern p filename with
      | Some (quarter, year) => (Some quarter, year)
      | None => resolve ps' filename
      end
  end.

Definition find_quarter_year_from_filename (filename : string)
  : option string * option string :=
  resolve patterns filename.

End Utils.

(* ================================================================== *)
(** ** Insertion-ordered dictionaries *)

Module Dict.

(** A Python [dict] with string keys: bindings in insertion order. *)
Definition dict (V : Type) : Type := list (string * V).

Definition keys {V : Type} (d : dict V) : list string := map fst d.

Fixpoint get {V : Type} (d : dict V) (key : string) : option V :=
  match d with
  | [] => None
  | (k, v) :: d' => if String.eqb k key then Some v else get d' key
  end.

(** [key in d] *)
Definition mem {V : Type} (d : dict V) (key : string) : bool :=
  match get d key with Some _ => true | None => false end.

(** [d[key] = v]: an existing key keeps its place. *)
Fixpoint set {V : Type} (d : dict V) (key : string) (v : V) : dict V :=
  match d with
  | [] => [(key, v)]
  | (k, w) :: d' =>
      if String.eqb k key then (k, v) :: d' else (k, w) :: set d' key v
  end.

End Dict.

(* ================================================================== *)
(** ** excel_reader_no_llm.py *)

Module ExcelReader.
Import Regex.

(** A sheet read with [header=None]: rows of cells, a cell being either
    missing (NaN, [None] here) or a value shown by [str(cell)]. *)
Definition cell : Type := option string.
Definition row : Type := list cell.
Definition grid : Type := list row.

(** [row.astype(str)]: a missing cell reads "nan". *)
Definition astype_str (c : cell) : string := default "nan" c.

(** [row.fillna('').astype(str)] *)
Definition fillna_str (c : cell) : string := default "" c.

(** [\dQ|Q\d], [case=False] *)
Definition quarter_token : re :=
  Alt (Seq digit (ci "Q")) (Seq (ci "Q") digit).

(** [\d{4}] *)
Definition four_digits : re := rep 4 digit.

Definition count (p : cell -> bool) (r : row) : nat :=
  length (List.filter p r).

Definition q_count (r : row) : nat :=
  count (fun c => bool_decide (is_Some (search quarter_token (astype_str c)))) r.

Definition year_count (r : row) : nat :=
  count (fun c => fullmatch four_digits (astype_str c)) r.

(** The [for idx, row in df.iterrows()] loop of [detect_header_rows];
    [idx] is the index of the first row of [rows]. Reaching the end of
    the frame leaves [header_row_with_years] at [None]. *)
Fixpoint detect_loop (rows : grid) (idx : nat) (header_row_with_q : option nat)
  : option nat * option nat :=
  match rows with
  | [] => (header_row_with_q, None)
  | r :: rows' =>
      let header_row_with_q :=
        match header_row_with_q with
        | None => if Nat.ltb 1 (q_count r) then Some idx else None
        | Some i => Some i
        end in
      match header_row_with_q with
      | Some i =>
          if Nat.eqb idx (i + 1) && Nat.ltb 1 (year_count r)
          then (Some i, Some idx)
          else detect_loop rows' (S idx) header_row_with_q
      | None => detect_loop rows' (S idx) header_row_with_q
      end
  end.

Definition detect_header_rows (df : grid) : option nat * option nat :=
  detect_loop df 0 None.

(** [df.iloc[i]] *)
Definition iloc (df : grid) (i : nat) : row := default [] (df !! i).

(** The test applied to one column of the two header rows. *)
Definition column_matches (quarter year q y : string) : bool :=
  let q_ref_as_lst := PyStr.char_set (PyStr.upper (PyStr.strip q)) in
  let q_as_lst := PyStr.char_set (PyStr.upper quarter) in
  bool_decide (q_as_lst = q_ref_as_lst) && String.eqb (PyStr.strip y) year.

(** [for col_idx, (q, y) in enumerate(zip(quarter_row, year_row))] *)
Fixpoint find_column (quarter year : string) (quarter_row year_row : list string)
    (col_idx : nat) : option nat :=
  match quarter_row, year_row with
  | q :: qs, y :: ys =>
      if column_matches quarter year q y then Some col_idx
      else find_column quarter year qs ys (S col_idx)
  | _, _ => None
  end.

Definition find_column_index_for_quarter_year (summary_df : grid)
    (quarter year : string) : option nat * option nat :=
  match detect_header_rows summary_df with
  | (Some header_q_row, Some header_year_row) =>
      let quarter_row := map fillna_str (iloc summary_df header_q_row) in
      let year_row := map fillna_str (iloc summary_df header_year_row) in
      (Some header_year_row, find_column quarter year quarter_row year_row 0)
  | _ => (None, None)
  end.

Definition metrics : list string :=
  [ "CET1 Capital Ratio";
    "Tangible book value per share";
    "Book value per share";
    "Net income";
    "Revenues" ].

(** [" ".join(str(cell) for cell in row if pd.notna(cell)).strip()] *)
Definition row_text (r : row) : string :=
  PyStr.strip (PyStr.join " " (omap id r)).

(** The score of a row for a metric, when the row passes the
    containment test; [None] when the row is skipped. *)
Definition row_score (normalized_metric : string) (r : row) : option float :=
  let text := row_text r in
  if negb (PyStr.truthy text) then None
  else
    let normalized_row_text := PyStr.lower text in
    if Utils.is_loosely_contained_nltk_no_punctuation
         normalized_metric normalized_row_text
    then
      let normalized_row_text_without_numbers :=
        Utils.strip_trailing_numbers normalized_row_text in
      Some (Utils.get_edit_distance_score
              normalized_metric normalized_row_text_without_numbers)
    else None.

(** [row[column_index]]: the row is indexed by the column labels
    0, 1, ..., and a label past its last column is a [KeyError]
    ([None]). *)
Definition cell_at (r : row) (column_index : nat) : option cell :=
  r !! column_index.

(** The inner [for i, row in df.iterrows()] loop, threading
    [(best_score, best_value)]; [i] is the index of the first of [rows].
    [None] is the [KeyError] of [row[column_index]], which is evaluated
    when a row beats the best score, and only then. *)
Fixpoint scan_rows (normalized_metric : string) (text_idx column_index : nat)
    (rows : grid) (i : nat) (best : float * cell) : option (float * cell) :=
  match rows with
  | [] => Some best
  | r :: rows' =>
      if Nat.ltb i text_idx
      then scan_rows normalized_metric text_idx column_index rows' (S i) best
      else
        match row_score normalized_metric r with
        | Some score =>
            if PrimFloat.ltb (fst best) score
            then match cell_at r column_index with
                 | Some best_value =>
                     scan_rows normalized_metric text_idx column_index rows'
                       (S i) (score, best_value)
                 | None => None
                 end
            else scan_rows normalized_metric text_idx column_index rows'
                   (S i) best
        | None =>
            scan_rows normalized_metric text_idx column_index rows' (S i) best
        end
  end.

Definition best_match (metric : string) (df : grid)
    (text_idx column_index : nat) : option (float * cell) :=
  scan_rows (PyStr.lower metric) text_idx column_index df 0 ((-1)%float, None).

(** The outer [for metric in metrics] loop; an exception of the inner
    loop leaves the function. *)
Fixpoint collect (ms : list string) (df : grid) (text_idx column_index : nat)
    (metric_to_val : Dict.dict cell) : option (Dict.dict cell) :=
  match ms with
  | [] => Some metric_to_val
  | metric :: ms' =>
      match best_match metric df text_idx column_index with
      | Some (best_score, best_value) =>
          collect ms' df text_idx column_index
            (if PrimFloat.ltb (-1) best_score
             then Dict.set metric_to_val metric best_value
             else metric_to_val)
      | None => None
      end
  end.

(** [get_metrics_from_df]: the mapping returned, or [None] for the
    [KeyError]. *)
Definition get_metrics_from_df (df : grid) (text_idx column_index : nat)
  : option (Dict.dict cell) :=
  collect metrics df text_idx column_index [].

(** Truthiness of an index that may be [None]: [None] and [0] are false. *)
Definition truthy_index (o : option nat) : bool :=
  match o with
  | Some (S _) => true
  | _ => false
  end.

Definition truthy_str (o : option string) : bool :=
  match o with
  | Some s => PyStr.truthy s
  | None => false
  end.

(** [get_metrics_values_from_excel]; [summary_df] is what
    [pd.read_excel(excel_path, sheet_name="Summary", header=None)] read.
    The two early exits return the empty mapping; an exception of
    [get_metrics_from_df] is not caught. *)
Definition get_metrics_values_from_excel (excel_path : string)
    (summary_df : grid) : option (Dict.dict cell) :=
  let '(quarter, year) := Utils.find_quarter_year_from_filename excel_path in
  if negb (truthy_str quarter) || negb (truthy_str year) then Some []
  else
    let '(header_row, column_index) :=
      find_column_index_for_quarter_year summary_df
        (default "" quarter) (default "" year) in
    if negb (truthy_index header_row) || negb (truthy_index column_index)
    then Some []
    else get_metrics_from_df summary_df
           (default 0 header_row + 1) (default 0 column_index).

End ExcelReader.

(* ================================================================== *)
(** ** pdf_reader_no_llm.py: choosing one value per metric *)

Module PdfReader.

(** One entry of [extracted_data]. *)
Record observation : Type := {
  o_metric : string;
  o_value : float;
  o_unit : option string;
  o_quarter : option string;
  o_sentence : string
}.

(** One row of [df_grouped]. *)
Record group_row : Type := {
  g_metric : string;
  g_value : float;
  g_unit : string;
  counts : nat
}.

(** One record of the returned list. *)
Record metric_record : Type := {
  r_metric : string;
  r_value : float;
  r_unit : string
}.

(** [df[(df['quarter'] == quarter) | (df['quarter'].isnull())]] *)
Definition keep_quarter (quarter : string) (o : observation) : bool :=
  match o.(o_quarter) with
  | Some q => String.eqb q quarter
  | None => true
  end.

Definition df_filtered (quarter : string) (df : list observation)
  : list observation :=
  List.filter (keep_quarter quarter) df.

(** Group keys [(metric, value, unit)]: equality and the ascending
    order in which [groupby] lists its groups. *)
Definition key_eqb (m : string) (v : float) (u : string) (g : group_row)
  : bool :=
  String.eqb m g.(g_metric) && PrimFloat.eqb v g.(g_value)
  && String.eqb u g.(g_unit).

Definition key_ltb (m : string) (v : float) (u : string) (g : group_row)
  : bool :=
  String.ltb m g.(g_metric)
  || (String.eqb m g.(g_metric)
      && (PrimFloat.ltb v g.(g_value)
          || (PrimFloat.eqb v g.(g_value) && String.ltb u g.(g_unit)))).

Definition bump (g : group_row) : group_row :=
  {| g_metric := g.(g_metric); g_value := g.(g_value);
     g_unit := g.(g_unit); counts := S g.(counts) |}.

(** Count one more row of key [(m, v, u)] in a key-ordered group list. *)
Fixpoint add_to_groups (m : string) (v : float) (u : string)
    (gs : list group_row) : list group_row :=
  match gs with
  | [] => [ {| g_metric := m; g_value := v; g_unit := u; counts := 1 |} ]
  | g :: gs' =>
      if key_eqb m v u g then bump g :: gs'
      else if key_ltb m v u g
      then {| g_metric := m; g_value := v; g_unit := u; counts := 1 |} :: g :: gs'
      else g :: add_to_groups m v u gs'
  end.

(** A row takes part in the grouping only if none of its keys is null
    ([groupby] drops null keys, [dropna=True] being its default): the
    unit is present, the value no NaN. *)
Definition add_row (gs : list group_row) (o : observation) : list group_row :=
  match o.(o_unit) with
  | Some u =>
      if PyFloat.is_nan o.(o_value) then gs
      else add_to_groups o.(o_metric) o.(o_value) u gs
  | None => gs
  end.

(** [groupby(['metric', 'value', 'unit']).size().reset_index(name='counts')]:
    one row per distinct key, keys ascending ([sort=True] is the
    default of [groupby]), with the number of rows. *)
Definition df_grouped (rows : list observation) : list group_row :=
  fold_left add_row rows [].

(** [sort_values(['metric', 'counts'], ascending=[True, False])]: with
    several keys pandas sorts lexicographically and stably, so rows
    equal on both keys keep their order; [sorts_before a b] when [a]
    must come before [b]. *)
Definition sorts_before (a b : group_row) : bool :=
  String.ltb a.(g_metric) b.(g_metric)
  || (String.eqb a.(g_metric) b.(g_metric) && Nat.ltb b.(counts) a.(counts)).

Fixpoint insert_sorted (x : group_row) (l : list group_row) : list group_row :=
  match l with
  | [] => [x]
  | y :: l' => if sorts_before y x then y :: insert_sorted x l' else x :: y :: l'
  end.

Definition df_grouped_sorted (grouped : list group_row) : list group_row :=
  fold_right insert_sorted [] grouped.

(** [groupby('metric').first().reset_index()]: the first row of each
    metric. *)
Fixpoint final_selection (sorted : list group_row) : list group_row :=
  match sorted with
  | [] => []
  | g :: rest =>
      g :: List.filter (fun h => negb (String.eqb h.(g_metric) g.(g_metric)))
             (final_selection rest)
  end.

Definition metrics_priority : list string :=
  [ "CET1 Capital Ratio";
    "Tangible book value per share";
    "Book value per share";
    "Net income";
    "Revenues" ].

Definition row_of (m : string) (rows : list group_row) : option group_row :=
  List.find (fun g => String.eqb g.(g_metric) m) rows.

(** [pd.merge(priority_df, final_selection, on='metric', how='left')],
    then [value.astype(float)] and [unit.astype(str)]: every metric of
    the priority list gets a row, with NaN (shown "nan" as a string) where
    [final_selection] has none. *)
Definition final_df (selection : list group_row) : list metric_record :=
  map (fun m =>
         match row_of m selection with
         | Some g => {| r_metric := m; r_value := g.(g_value);
                        r_unit := g.(g_unit) |}
         | None => {| r_metric := m; r_value := PrimFloat.nan;
                      r_unit := "nan" |}
         end)
      metrics_priority.

(** [get_metrics_values_from_pdf] from step 6 on, for the quarter read
    from the file name and the extracted observations. The quarter
    column computed between [final_selection] and [final_df] is dropped
    by the final column selection and is not modelled. *)
Definition metrics_list (quarter : string) (extracted_data : list observation)
  : list metric_record :=
  match extracted_data with
  | [] => []
  | _ =>
      final_df
        (final_selection
           (df_grouped_sorted (df_grouped (df_filtered quarter extracted_data))))
  end.

(** Vocabulary for statements about the selection. Two observations
    fall in the same group when their three keys are equal; a group is
    listed before another of the same metric when its value is smaller,
    or the values are equal and its unit is smaller. *)
Definition same_group (o o' : observation) : bool :=
  String.eqb o.(o_metric) o'.(o_metric)
  && PrimFloat.eqb o.(o_value) o'.(o_value)
  && bool_decide (o.(o_unit) = o'.(o_unit)).

Definition occurrences (o : observation) (rows : list observation) : nat :=
  length (List.filter (same_group o) rows).

Definition key_precedes (o o' : observation) : Prop :=
  PrimFloat.ltb o.(o_value) o'.(o_value) = true
  \/ (PrimFloat.eqb o.(o_value) o'.(o_value) = true
      /\ exists u u', o.(o_unit) = Some u /\ o'.(o_unit) = Some u'
                      /\ String.ltb u u' = true).

(** An observation all of whose grouping keys are present. *)
Definition has_keys (o : observation) : Prop :=
  is_Some o.(o_unit) /\ PyFloat.is_nan o.(o_value) = false.

(** The group a new row opens. *)
Definition as_group (m : string) (v : float) (u : string) : group_row :=
  {| g_metric := m; g_value := v; g_unit := u; counts := 1 |}.

(** The selection as the specification words it: of the groups of
    metric [m] with the highest count, the one whose first member
    comes first in the input. [first_seen_best m rows rows] scans the
    input once and keeps the best observation met so far, replacing it
    only by one whose group is strictly larger. *)
Fixpoint first_seen_best (m : string) (rows todo : list observation)
  : option observation :=
  match todo with
  | [] => None
  | o :: todo' =>
      if String.eqb o.(o_metric) m
      then match first_seen_best m rows todo' with
           | Some o' =>
               if Nat.ltb (occurrences o rows) (occurrences o' rows)
               then Some o' else Some o
           | None => Some o
           end
      else first_seen_best m rows todo'
  end.

End PdfReader.

(* ================================================================== *)
(** ** main.py: the comparator *)

Module Main.

Open Scope float_scope.

Inductive status : Type := Match | NoMatch.

Definition is_no_match (s : status) : bool :=
  match s with NoMatch => true | Match => false end.

(** Computations that may raise, and that log the tabular value of
    every tolerance test they make. *)
Definition M (A : Type) : Type := option (A * list float).

Definition ret {A : Type} (x : A) : M A := Some (x, []).

Definition bind {A B : Type} (c : M A) (f : A -> M B) : M B :=
  match c with
  | None => None
  | Some (x, log1) =>
      match f x with
      | None => None
      | Some (y, log2) => Some (y, (log1 ++ log2)%list)
      end
  end.

Notation "x <- c ;; k" := (bind c (fun x => k))
  (at level 100, c at next level, right associativity).

(** The helper [is_within_tolerance]; [None] is [ZeroDivisionError]. *)
Definition is_within_tolerance (a b tol : float) : option bool :=
  if b =? 0 then Some (a =? 0)
  else
    match PyFloat.truediv a b with
    | None => None
    | Some ratio => Some ((1 - tol <=? ratio) && (ratio <=? 1 + tol))
    end.

(** The verdict of the helper as a plain boolean (the helper never
    raises, see [is_within_tolerance_total] below). *)
Definition tolerance_ok (a b tol : float) : bool :=
  if b =? 0 then a =? 0 else (1 - tol <=? a / b) && (a / b <=? 1 + tol).

(** A call of the helper, logged. *)
Definition within (a b tol : float) : M bool :=
  match is_within_tolerance a b tol with
  | Some r => Some (r, [b])
  | None => None
  end.

Definition unit_is_percent (pdf_unit : string) : bool := String.eqb pdf_unit "%".

(** The body of the loop for a metric present in both dictionaries,
    from [match_status = "No Match"] to the last retry. *)
Definition reconcile (pdf_value : float) (pdf_unit : string)
    (excel_value relative_tolerance : float) : M status :=
  let match_status := NoMatch in
  match_status <-
    (if unit_is_percent pdf_unit then
       let pdf_adj := pdf_value / 100 in
       let excel_adj := if 1 <? excel_value then excel_value / 100
                        else excel_value in
       ok <- within pdf_adj excel_adj relative_tolerance ;;
       ret (if ok then Match else match_status)
     else
       ok <- within pdf_value excel_value relative_tolerance ;;
       ret (if ok then Match else match_status)) ;;
  match_status <-
    (if is_no_match match_status && negb (unit_is_percent pdf_unit) then
       let scaled_excel := excel_value * 1000 in
       ok <- within pdf_value scaled_excel relative_tolerance ;;
       ret (if ok then Match else match_status)
     else ret match_status) ;;
  match_status <-
    (if is_no_match match_status && negb (unit_is_percent pdf_unit) then
       let scaled_excel := excel_value / 1000 in
       ok <- within pdf_value scaled_excel relative_tolerance ;;
       ret (if ok then Match else match_status)
     else ret match_status) ;;
  ret match_status.

(** [{'value': ..., 'unit': ...}] *)
Record pdf_info : Type := { value : float; unit : string }.

(** The Excel column of a result row: [None], a formatted string, or
    the number itself (rows of metrics found in Excel only). *)
Inductive excel_cell : Type :=
| ExcelNone
| ExcelStr (s : string)
| ExcelNum (x : float).

(** One row [[metric, pdf_display, excel_display, match_status]]. *)
Record comparison : Type := {
  c_metric : string;
  c_pdf : option string;
  c_excel : excel_cell;
  c_status : status
}.

Section Comparator.

(** [f"{x}"] for a float. *)
Variable fmt : float -> string.

Definition pdf_loop_step (excel_metric_dict : Dict.dict float)
    (relative_tolerance : float) (metric : string) (info : pdf_info)
  : M comparison :=
  match Dict.get excel_metric_dict metric with
  | None =>
      ret {| c_metric := metric;
             c_pdf := Some (fmt info.(value) ++ info.(unit))%string;
             c_excel := ExcelNone; c_status := NoMatch |}
  | Some excel_value =>
      let pdf_value := info.(value) in
      let pdf_unit := info.(unit) in
      match_status <-
        reconcile pdf_value pdf_unit excel_value relative_tolerance ;;
      let pdf_display :=
        if PyStr.truthy pdf_unit then (fmt info.(value) ++ pdf_unit)%string
        else fmt info.(value) in
      let excel_display := fmt excel_value in
      ret {| c_metric := metric; c_pdf := Some pdf_display;
             c_excel := ExcelStr excel_display; c_status := match_status |}
  end.

(** [for metric, pdf_info in pdf_metric_dict.items()] *)
Fixpoint pdf_loop (items : Dict.dict pdf_info)
    (excel_metric_dict : Dict.dict float) (relative_tolerance : float)
  : M (list comparison) :=
  match items with
  | [] => ret []
  | (metric, info) :: items' =>
      r <- pdf_loop_step excel_metric_dict relative_tolerance metric info ;;
      rs <- pdf_loop items' excel_metric_dict relative_tolerance ;;
      ret (r :: rs)
  end.

(** [for metric in excel_metric_dict] *)
Fixpoint excel_loop (items : Dict.dict float) (pdf_metric_dict : Dict.dict pdf_info)
  : list comparison :=
  match items with
  | [] => []
  | (metric, excel_value) :: items' =>
      if Dict.mem pdf_metric_dict metric
      then excel_loop items' pdf_metric_dict
      else {| c_metric := metric; c_pdf := None;
              c_excel := ExcelNum excel_value; c_status := NoMatch |}
           :: excel_loop items' pdf_metric_dict
  end.

Definition compare_values (pdf_metric_dict : Dict.dict pdf_info)
    (excel_metric_dict : Dict.dict float) (relative_tolerance : float)
  : option (list comparison) :=
  match pdf_loop pdf_metric_dict excel_metric_dict relative_tolerance with
  | None => None
  | Some (results, _) =>
      Some (results ++ excel_loop excel_metric_dict pdf_metric_dict)%list
  end.

End Comparator.

End Main.

(* ================================================================== *)
(** ** Notions used by the statements and their proofs *)

Section Notions.
Import ExcelReader PdfReader.

(** The year header a located quarter row [i] can have: row [i + 1],
    if it holds more than one four-digit cell. *)
Definition year_row_after (df : grid) (i : nat) : option nat :=
  match df !! (i + 1) with
  | Some r => if Nat.ltb 1 (year_count r) then Some (i + 1) else None
  | None => None
  end.

(** A float that is no NaN equals itself. *)
Definition not_nan (x : float) : Prop := (x =? x)%float = true.

Definition g_eqb (a b : group_row) : bool :=
  key_eqb (g_metric a) (g_value a) (g_unit a) b.

Definition g_lt (a b : group_row) : Prop :=
  key_ltb (g_metric a) (g_value a) (g_unit a) b = true.

Definition g_valid (g : group_row) : Prop := not_nan (g_value g).

(** Rows counted under probe [p]: the sum of the counts of the groups
    equal to it. *)
Fixpoint cnt (p : group_row) (gs : list group_row) : nat :=
  match gs with
  | [] => 0
  | g :: gs' => (if g_eqb p g then counts g else 0) + cnt p gs'
  end.

(** An observation falls in the group of probe [p]. *)
Definition matches (p : group_row) (o : observation) : bool :=
  match o_unit o with
  | Some u => g_eqb p (as_group (o_metric o) (o_value o) u)
  | None => false
  end.

Definition occ_g (p : group_row) (rows : list observation) : nat :=
  length (List.filter (matches p) rows).

(** Where the key fields of a group come from. *)
Definition from_rows (rows : list observation) (g : group_row) : Prop :=
  exists o, o ∈ rows /\ o_metric o = g_metric g /\ o_value o = g_value g
            /\ o_unit o = Some (g_unit g).

(** The first row of metric [m] with the highest count, in list order. *)
Fixpoint best_of (m : string) (l : list group_row) : option group_row :=
  match l with
  | [] => None
  | x :: l' =>
      if String.eqb (g_metric x) m
      then match best_of m l' with
           | Some y => if Nat.ltb (counts x) (counts y) then Some y else Some x
           | None => Some x
           end
      else best_of m l'
  end.

(** Metrics ascending. *)
Definition metric_sorted (l : list group_row) : Prop :=
  StronglySorted (fun a b => String.leb (g_metric a) (g_metric b) = true) l.

End Notions.

Section ComparatorNotions.
Import Main.

(** What the first loop promises about the row of a metric. *)
Definition pdf_row_ok (excel : Dict.dict float) (r : comparison) : Prop :=
  c_pdf r <> None
  /\ (c_metric r ∉ Dict.keys excel ->
      c_excel r = ExcelNone /\ c_status r = NoMatch).

(** What the second loop promises about a row it adds. *)
Definition excel_row_ok (excel : Dict.dict float) (r : comparison) : Prop :=
  c_pdf r = None /\ c_status r = NoMatch
  /\ exists v, c_excel r = ExcelNum v /\ (c_metric r, v) ∈ excel.

End ComparatorNotions.

(** Two observations of one metric, each seen once: 5.0 first, 3.0 second. *)
Definition tie_example : list PdfReader.observation :=
  [ {| PdfReader.o_metric := "Net income"; PdfReader.o_value := 5;
       PdfReader.o_unit := Some "B"; PdfReader.o_quarter := Some "Q3";
       PdfReader.o_sentence := "net income of $5b in q3" |};
    {| PdfReader.o_metric := "Net income"; PdfReader.o_value := 3;
       PdfReader.o_unit := Some "B"; PdfReader.o_quarter := Some "Q3";
       PdfReader.o_sentence := "net income of $3b in q3" |} ].

(** One observation, of the capital ratio only. *)
Definition lone_ratio_example : list PdfReader.observation :=
  [ {| PdfReader.o_metric := "CET1 Capital Ratio"; PdfReader.o_value := 13.6;
       PdfReader.o_unit := Some "%"; PdfReader.o_quarter := Some "Q3";
       PdfReader.o_sentence := "cet1 capital ratio of 13.6% in q3" |} ].



(** Case analysis on the integer comparisons left by [SFcompare]. *)
Ltac compare_cases :=
  repeat match goal with
    | H : context [Pos.compare_cont Eq ?a ?b] |- _ =>
        change (Pos.compare_cont Eq a b) with (Pos.compare a b) in H
    | |- context [Pos.compare_cont Eq ?a ?b] =>
        change (Pos.compare_cont Eq a b) with (Pos.compare a b)
    end;
  repeat match goal with
    | H : context [Z.compare ?a ?b] |- _ => destruct (Z.compare_spec a b)
    | |- context [Z.compare ?a ?b] => destruct (Z.compare_spec a b)
    | H : context [Pos.compare ?a ?b] |- _ => destruct (Pos.compare_spec a b)
    | |- context [Pos.compare ?a ?b] => destruct (Pos.compare_spec a b)
    end;
  subst; simpl in *; try congruence; try lia.

(* ================================================================== *)
(** ** The filename period resolver *)

Section Resolver.
Import Regex Utils.

Lemma resolve_skip (ps1 ps2 : list re) (filename : string) :
  Forall (fun p => try_pattern p filename = None) ps1 ->
  resolve (ps1 ++ ps2)%list filename = resolve ps2 filename.
Proof.
  induction 1 as [|p ps1 Hp _ IH]; simpl; [reflexivity|].
  now rewrite Hp.
Qed.

Lemma resolve_first_match (ps1 ps2 : list re) (p : re) (filename quarter : string)
    (year : option string) :
  Forall (fun p' => try_pattern p' filename = None) ps1 ->
  try_pattern p filename = Some (quarter, year) ->
  resolve (ps1 ++ p :: ps2)%list filename = (Some quarter, year).
Proof.
  intros Hskip Hp. rewrite resolve_skip by assumption.
  simpl. now rewrite Hp.
Qed.

Lemma try_pattern_invalid_quarter (p : re) (filename : string) (caps : captures) :
  search p filename = Some caps ->
  valid_quarter (default "" (group "q" caps)) = false ->
  try_pattern p filename = None.
Proof.
  intros Hs Hq. unfold try_pattern. now rewrite Hs, Hq.
Qed.

Lemma try_pattern_year2 (p : re) (filename : string) (caps : captures)
    (y2 : string) :
  search p filename = Some caps ->
  valid_quarter (default "" (group "q" caps)) = true ->
  group "year2" caps = Some y2 -> y2 <> "" ->
  try_pattern p filename
  = Some ("Q" ++ default "" (group "q" caps), Some ("20" ++ y2)).
Proof.
  intros Hs Hq Hy Hne. unfold try_pattern, year_of.
  rewrite Hs, Hq, Hy. destruct y2; [congruence|reflexivity].
Qed.

Lemma valid_quarter_spec (q : string) :
  valid_quarter q = true <-> q = "1" \/ q = "2" \/ q = "3" \/ q = "4".
Proof.
  unfold valid_quarter. simpl. rewrite !orb_true_iff, !String.eqb_eq.
  intuition congruence.
Qed.

End Resolver.

(** C4. The three file names of the spec resolve to (Q3, 2024); the
    resolver is the loop over the fixed pattern list, in which the
    first pattern that contributes wins, a match whose quarter digit
    is not one of 1..4 contributes nothing (the loop goes on), and a
    two-digit year is expanded to 20YY. *)
Theorem filename_period_resolver :
  Utils.find_quarter_year_from_filename "2024Q3_report" = (Some "Q3", Some "2024")
  /\ Utils.find_quarter_year_from_filename "3Q24_summary" = (Some "Q3", Some "2024")
  /\ Utils.find_quarter_year_from_filename "FY2024-Q3" = (Some "Q3", Some "2024")
  /\ (forall filename ps1 p ps2 quarter year,
        Utils.patterns = (ps1 ++ p :: ps2)%list ->
        Forall (fun p' => Utils.try_pattern p' filename = None) ps1 ->
        Utils.try_pattern p filename = Some (quarter, year) ->
        Utils.find_quarter_year_from_filename filename = (Some quarter, year))
  /\ (forall filename p ps caps,
        Regex.search p filename = Some caps ->
        ~ In (default "" (Regex.group "q" caps)) ["1"; "2"; "3"; "4"] ->
        Utils.resolve (p :: ps) filename = Utils.resolve ps filename)
  /\ (forall filename p ps caps y2,
        Regex.search p filename = Some caps ->
        In (default "" (Regex.group "q" caps)) ["1"; "2"; "3"; "4"] ->
        Regex.group "year2" caps = Some y2 -> y2 <> "" ->
        Utils.resolve (p :: ps) filename
        = (Some ("Q" ++ default "" (Regex.group "q" caps)), Some ("20" ++ y2))).
Proof.
  split; [vm_compute; reflexivity|].
  split; [vm_compute; reflexivity|].
  split; [vm_compute; reflexivity|].
  split; [|split].
  - intros filename ps1 p ps2 quarter year Hsplit Hskip Hp.
    unfold Utils.find_quarter_year_from_filename. rewrite Hsplit.
    now apply resolve_first_match.
  - intros filename p ps caps Hs Hq. simpl.
    rewrite (try_pattern_invalid_quarter p filename caps Hs); [reflexivity|].
    destruct (Utils.valid_quarter _) eqn:E; [|reflexivity].
    apply valid_quarter_spec in E. exfalso. apply Hq. simpl. intuition.
  - intros filename p ps caps y2 Hs Hq Hy Hne. simpl.
    rewrite (try_pattern_year2 p filename caps y2 Hs); auto.
    apply valid_quarter_spec. simpl in Hq. intuition.
Qed.

Lemma filename_period_resolver_witness :
  Utils.find_quarter_year_from_filename "3Q24_summary" = (Some "Q3", Some "2024")
  /\ Utils.resolve [Regex.Grp "q" Regex.digit; Regex.Grp "q" (Regex.range "1" "4")] "Q7-Q2"
     = Utils.resolve [Regex.Grp "q" (Regex.range "1" "4")] "Q7-Q2"
  /\ Utils.resolve [Regex.seq [Regex.Grp "q" (Regex.range "1" "4"); Regex.one_of "qQ";
                               Regex.Grp "year2" (Regex.rep 2 Regex.digit)]] "1q25"
     = (Some "Q1", Some "2025").
Proof.
  destruct filename_period_resolver as (_ & _ & _ & Hfirst & Hskip & Hyear2).
  split; [|split].
  - apply (Hfirst "3Q24_summary" (firstn 8 Utils.patterns)
             (nth 8 Utils.patterns Regex.Eps) [] "Q3" (Some "2024")).
    + reflexivity.
    + repeat constructor.
    + vm_compute; reflexivity.
  - apply (Hskip "Q7-Q2" _ _ [("q", "7")]).
    + vm_compute; reflexivity.
    + simpl. intros [H|[H|[H|[H|[]]]]]; discriminate H.
  - apply (Hyear2 "1q25" _ _ [("year2", "25"); ("q", "1")] "25").
    + vm_compute; reflexivity.
    + simpl. auto.
    + reflexivity.
    + discriminate.
Defined.

(* ================================================================== *)
(** ** The comparator *)

Section ComparatorFacts.
Import Main.
Open Scope float_scope.

Lemma is_within_tolerance_total (a b tol : float) :
  is_within_tolerance a b tol = Some (tolerance_ok a b tol).
Proof.
  unfold is_within_tolerance, tolerance_ok, PyFloat.truediv.
  destruct (b =? 0); reflexivity.
Qed.

Lemma within_logged (a b tol : float) :
  within a b tol = Some (tolerance_ok a b tol, [b]).
Proof. unfold within. now rewrite is_within_tolerance_total. Qed.

Lemma reconcile_percent (pdf_value excel_value tol : float) :
  reconcile pdf_value "%" excel_value tol
  = let excel_adj := if 1 <? excel_value then excel_value / 100 else excel_value in
    Some (if tolerance_ok (pdf_value / 100) excel_adj tol then Match else NoMatch,
          [excel_adj]).
Proof.
  unfold reconcile, unit_is_percent.
  cbn -[within tolerance_ok]. rewrite within_logged.
  destruct (tolerance_ok _ _ _); reflexivity.
Qed.

Lemma reconcile_scaled (pdf_value : float) (pdf_unit : string)
    (excel_value tol : float) :
  pdf_unit <> "%"%string ->
  reconcile pdf_value pdf_unit excel_value tol
  = if tolerance_ok pdf_value excel_value tol
    then Some (Match, [excel_value])
    else if tolerance_ok pdf_value (excel_value * 1000) tol
    then Some (Match, [excel_value; excel_value * 1000])
    else Some (if tolerance_ok pdf_value (excel_value / 1000) tol
               then Match else NoMatch,
               [excel_value; excel_value * 1000; excel_value / 1000]).
Proof.
  intros Hunit. unfold reconcile, unit_is_percent.
  apply String.eqb_neq in Hunit. rewrite Hunit.
  cbn -[within tolerance_ok]. rewrite within_logged.
  destruct (tolerance_ok pdf_value excel_value tol);
    cbn -[within tolerance_ok]; [reflexivity|].
  rewrite within_logged.
  destruct (tolerance_ok pdf_value (excel_value * 1000) tol);
    cbn -[within tolerance_ok]; [reflexivity|].
  rewrite within_logged.
  destruct (tolerance_ok pdf_value (excel_value / 1000) tol); reflexivity.
Qed.

Lemma reconcile_total (pdf_value : float) (pdf_unit : string)
    (excel_value tol : float) :
  exists st log, reconcile pdf_value pdf_unit excel_value tol = Some (st, log).
Proof.
  destruct (String.eqb_spec pdf_unit "%") as [->|Hne].
  - rewrite reconcile_percent. simpl. eauto.
  - rewrite reconcile_scaled by assumption.
    repeat match goal with |- context [if ?c then _ else _] => destruct c end;
      eauto.
Qed.

End ComparatorFacts.

Section ComparatorRows.
Import Main.
Variable fmt : float -> string.
Variable excel : Dict.dict float.
Variable tol : float.

(** The status written in the row of a metric found in both
    dictionaries is the one the three tests gave. *)
Lemma pdf_loop_step_status (metric : string) (info : pdf_info) :
  exists r log,
    pdf_loop_step fmt excel tol metric info = Some (r, log)
    /\ c_metric r = metric
    /\ forall excel_value,
         Dict.get excel metric = Some excel_value ->
         reconcile (value info) (unit info) excel_value tol
         = Some (c_status r, log).
Proof.
  unfold pdf_loop_step.
  destruct (Dict.get excel metric) as [excel_value|] eqn:E.
  - destruct (reconcile_total (value info) (unit info) excel_value tol)
      as (st & log & Hr).
    rewrite Hr. eexists _, _. split; [reflexivity|]. simpl.
    split; [reflexivity|]. intros ev [= <-]. now rewrite app_nil_r.
  - eexists _, _. split; [reflexivity|]. split; [reflexivity|]. discriminate.
Qed.

Lemma pdf_loop_status (items : Dict.dict pdf_info) :
  exists rs log,
    pdf_loop fmt items excel tol = Some (rs, log)
    /\ Forall2
         (fun item r =>
            c_metric r = item.1
            /\ forall excel_value,
                 Dict.get excel item.1 = Some excel_value ->
                 exists log',
                   reconcile (value item.2) (unit item.2) excel_value tol
                   = Some (c_status r, log'))
         items rs.
Proof.
  induction items as [|[metric info] items (rs & log & IH & Hrows)].
  - exists [], []. split; [reflexivity|constructor].
  - destruct (pdf_loop_step_status metric info) as (r & log1 & Hr & Hm & Hst).
    simpl. rewrite Hr. simpl. rewrite IH. simpl.
    eexists _, _. split; [reflexivity|]. constructor; [|assumption].
    split; [assumption|]. intros ev Hev. exists log1. now apply Hst.
Qed.

End ComparatorRows.

(** C1. For a narrative unit other than percent the comparator tests
    the tabular value unscaled, then times 1000, then divided by 1000,
    each at the given tolerance, stops at the first test that succeeds
    (status Match, nothing further is tested) and reports No Match when
    all three fail. 3200 against 3.2 matches at the x1000 retry only,
    3200 against 3200000 at the /1000 retry only. The status is the
    one written in the result row: in the list [compare_values]
    returns, the row of every metric found in both dictionaries with
    such a unit has status Match when one of the three tests succeeds
    and No Match when all three fail; 3200 B against 50 gives a row of
    status No Match. *)
Theorem scale_retry_order :
  (forall (pdf_value : float) (pdf_unit : string) (excel_value tol : float),
     pdf_unit <> "%" ->
     Main.reconcile pdf_value pdf_unit excel_value tol
     = if Main.tolerance_ok pdf_value excel_value tol
       then Some (Main.Match, [excel_value])
       else if Main.tolerance_ok pdf_value (excel_value * 1000) tol
       then Some (Main.Match, [excel_value; excel_value * 1000])
       else if Main.tolerance_ok pdf_value (excel_value / 1000) tol
       then Some (Main.Match,
                  [excel_value; excel_value * 1000; excel_value / 1000])
       else Some (Main.NoMatch,
                  [excel_value; excel_value * 1000; excel_value / 1000]))%float
  /\ (Main.tolerance_ok 3200 3.2 0.05 = false
      /\ Main.tolerance_ok 3200 (3.2 * 1000) 0.05 = true
      /\ Main.reconcile 3200 "" 3.2 0.05
         = Some (Main.Match, [3.2; 3.2 * 1000]))%float
  /\ (Main.tolerance_ok 3200 3200000 0.05 = false
      /\ Main.tolerance_ok 3200 (3200000 * 1000) 0.05 = false
      /\ Main.tolerance_ok 3200 (3200000 / 1000) 0.05 = true
      /\ Main.reconcile 3200 "" 3200000 0.05
         = Some (Main.Match, [3200000; 3200000 * 1000; 3200000 / 1000]))%float
  /\ (forall fmt : float -> string,
        Main.compare_values fmt
          [("Net income", {| Main.value := 3200; Main.unit := "" |})]
          [("Net income", 3.2%float)] 0.05
        = Some [ {| Main.c_metric := "Net income";
                    Main.c_pdf := Some (fmt 3200%float);
                    Main.c_excel := Main.ExcelStr (fmt 3.2%float);
                    Main.c_status := Main.Match |} ])
  /\ (forall (fmt : float -> string) (pdf : Dict.dict Main.pdf_info)
             (excel : Dict.dict float) (tol : float),
        exists rows,
          Main.compare_values fmt pdf excel tol
          = Some (rows ++ Main.excel_loop excel pdf)%list
          /\ Forall2
               (fun item r =>
                  Main.c_metric r = item.1
                  /\ forall excel_value,
                       Dict.get excel item.1 = Some excel_value ->
                       Main.unit item.2 <> "%" ->
                       Main.c_status r
                       = (if Main.tolerance_ok (Main.value item.2)
                               excel_value tol
                          then Main.Match
                          else if Main.tolerance_ok (Main.value item.2)
                                    (excel_value * 1000) tol
                          then Main.Match
                          else if Main.tolerance_ok (Main.value item.2)
                                    (excel_value / 1000) tol
                          then Main.Match
                          else Main.NoMatch)%float)
               pdf rows)
  /\ (forall fmt : float -> string,
        Main.compare_values fmt
          [("Net income", {| Main.value := 3200; Main.unit := "B" |})]
          [("Net income", 50%float)] 0.05
        = Some [ {| Main.c_metric := "Net income";
                    Main.c_pdf := Some (fmt 3200%float ++ "B");
                    Main.c_excel := Main.ExcelStr (fmt 50%float);
                    Main.c_status := Main.NoMatch |} ]).
Proof.
  split; [|split; [|split; [|split; [|split]]]].
  - intros pdf_value pdf_unit excel_value tol Hunit.
    rewrite reconcile_scaled by assumption.
    repeat match goal with |- context [if ?c then _ else _] => destruct c end;
      reflexivity.
  - repeat split; vm_compute; reflexivity.
  - repeat split; vm_compute; reflexivity.
  - intros fmt. vm_compute. reflexivity.
  - intros fmt pdf excel tol. unfold Main.compare_values.
    destruct (pdf_loop_status fmt excel tol pdf) as (rs & log & -> & Hrows).
    exists rs. split; [reflexivity|].
    eapply Forall2_impl; [exact Hrows|].
    intros item r [Hm Hst]. split; [exact Hm|].
    intros excel_value Hev Hunit. destruct (Hst excel_value Hev) as [log' Hr].
    rewrite reconcile_scaled in Hr by assumption.
    repeat match type of Hr with
           | context [if ?c then _ else _] => destruct c
           end; congruence.
  - intros fmt. vm_compute. reflexivity.
Qed.

Lemma scale_retry_order_witness :
  Main.reconcile 3200 "B" 3.2 0.05
  = Some (Main.Match, [3.2; 3.2 * 1000])%float
  /\ exists r,
       Main.compare_values (fun _ => "x")
         [("Net income", {| Main.value := 3200; Main.unit := "B" |})]
         [("Net income", 50%float)] 0.05 = Some [r]
       /\ Main.c_status r = Main.NoMatch.
Proof.
  destruct scale_retry_order as (H & _ & _ & _ & Hrows & _). split.
  - rewrite (H 3200%float "B" 3.2%float 0.05%float); [|discriminate].
    vm_compute. reflexivity.
  - destruct (Hrows (fun _ => "x")
                [("Net income", {| Main.value := 3200; Main.unit := "B" |})]
                [("Net income", 50%float)] 0.05%float)
      as (rows & Hc & Hf).
    inversion Hf as [|item r items rs [_ Hst] Hrest]; subst.
    inversion Hrest; subst. exists r. split; [exact Hc|].
    rewrite (Hst 50%float eq_refl); [|discriminate].
    vm_compute. reflexivity.
Defined.

(** C5. The tolerance test never divides by zero; when its second
    argument (the tabular side) is zero it succeeds exactly when the
    first (the narrative side) is zero too. So 0% against 0 is a Match. *)
Theorem zero_tabular_value :
  (forall a b tol : float, Main.is_within_tolerance a b tol <> None)
  /\ (forall a b tol : float,
        (b =? 0)%float = true ->
        Main.is_within_tolerance a b tol = Some (a =? 0)%float)
  /\ (forall pdf_value excel_value tol : float,
        let pdf_adj := (pdf_value / 100)%float in
        let excel_adj := (if 1 <? excel_value then excel_value / 100
                          else excel_value)%float in
        (excel_adj =? 0)%float = true ->
        Main.reconcile pdf_value "%" excel_value tol
        = Some (if (pdf_adj =? 0)%float then Main.Match else Main.NoMatch,
                [excel_adj]))
  /\ Main.reconcile 0 "%" 0 0.05 = Some (Main.Match, [0%float])
  /\ (forall fmt : float -> string,
        Main.compare_values fmt
          [("CET1 Capital Ratio", {| Main.value := 0; Main.unit := "%" |})]
          [("CET1 Capital Ratio", 0%float)] 0.05
        = Some [ {| Main.c_metric := "CET1 Capital Ratio";
                    Main.c_pdf := Some (fmt 0%float ++ "%");
                    Main.c_excel := Main.ExcelStr (fmt 0%float);
                    Main.c_status := Main.Match |} ]).
Proof.
  split; [|split; [|split; [|split]]].
  - intros a b tol. now rewrite is_within_tolerance_total.
  - intros a b tol Hb. unfold Main.is_within_tolerance. now rewrite Hb.
  - intros pdf_value excel_value tol pdf_adj excel_adj Hz.
    rewrite reconcile_percent. cbv zeta. fold excel_adj pdf_adj.
    unfold Main.tolerance_ok. now rewrite Hz.
  - vm_compute. reflexivity.
  - intros fmt. vm_compute. reflexivity.
Qed.

Lemma zero_tabular_value_witness :
  Main.is_within_tolerance 0 (-0) 0.05 = Some true
  /\ Main.is_within_tolerance 7 0 0.05 = Some false
  /\ Main.reconcile 0 "%" 0 0.05 = Some (Main.Match, [0%float]).
Proof.
  destruct zero_tabular_value as (_ & Hzero & Hpct & _).
  split; [|split].
  - apply (Hzero 0%float (-0)%float 0.05%float). vm_compute. reflexivity.
  - apply (Hzero 7%float 0%float 0.05%float). vm_compute. reflexivity.
  - apply (Hpct 0%float 0%float 0.05%float). vm_compute. reflexivity.
Defined.

Section DictFacts.
Context {V : Type}.

Lemma get_None_keys (d : Dict.dict V) (key : string) :
  Dict.get d key = None <-> key ∉ Dict.keys d.
Proof.
  induction d as [|[k v] d IH]; simpl.
  - split; [intros _; apply not_elem_of_nil|reflexivity].
  - rewrite not_elem_of_cons. destruct (String.eqb_spec k key) as [->|Hne].
    + split; [discriminate|intros [? _]; congruence].
    + rewrite IH. intuition congruence.
Qed.

Lemma mem_keys (d : Dict.dict V) (key : string) :
  Dict.mem d key = true <-> key ∈ Dict.keys d.
Proof.
  unfold Dict.mem. destruct (Dict.get d key) eqn:E.
  - split; [intros _|reflexivity].
    destruct (decide (key ∈ Dict.keys d)) as [|Hn]; [assumption|].
    apply get_None_keys in Hn. congruence.
  - split; [discriminate|]. intros Hin. apply get_None_keys in E. contradiction.
Qed.

Lemma mem_false_keys (d : Dict.dict V) (key : string) :
  Dict.mem d key = false <-> key ∉ Dict.keys d.
Proof.
  rewrite <- mem_keys. destruct (Dict.mem d key); intuition congruence.
Qed.

End DictFacts.

Section CompareValuesFacts.
Import Main.
Variable fmt : float -> string.
Variable excel : Dict.dict float.
Variable pdf : Dict.dict pdf_info.
Variable tol : float.


Lemma pdf_loop_step_spec (metric : string) (info : pdf_info) :
  exists r log,
    pdf_loop_step fmt excel tol metric info = Some (r, log)
    /\ c_metric r = metric /\ pdf_row_ok excel r.
Proof.
  unfold pdf_loop_step, pdf_row_ok.
  destruct (Dict.get excel metric) as [excel_value|] eqn:E.
  - destruct (reconcile_total (value info) (unit info) excel_value tol)
      as (st & log & ->).
    eexists _, _. split; [reflexivity|]. simpl. split; [reflexivity|].
    split; [discriminate|]. intros Hn. apply get_None_keys in Hn. congruence.
  - eexists _, _. split; [reflexivity|]. simpl.
    repeat split; discriminate.
Qed.

Lemma pdf_loop_spec (items : Dict.dict pdf_info) :
  exists rs log,
    pdf_loop fmt items excel tol = Some (rs, log)
    /\ map c_metric rs = Dict.keys items
    /\ Forall (pdf_row_ok excel) rs.
Proof.
  induction items as [|[metric info] items (rs & log & IH & Hk & Hok)].
  - exists [], []. repeat split; constructor.
  - destruct (pdf_loop_step_spec metric info) as (r & log1 & Hr & Hm & Hrow).
    simpl. rewrite Hr. simpl. rewrite IH. simpl.
    eexists _, _. split; [reflexivity|]. simpl. rewrite Hm, Hk.
    split; [reflexivity|]. now constructor.
Qed.

Lemma excel_loop_spec (items : Dict.dict float) :
  (forall kv, kv ∈ items -> kv ∈ excel) ->
  map c_metric (excel_loop items pdf)
  = List.filter (fun m => negb (Dict.mem pdf m)) (Dict.keys items)
  /\ Forall (excel_row_ok excel) (excel_loop items pdf).
Proof.
  induction items as [|[metric v] items IH]; intros Hsub; simpl.
  - split; constructor.
  - destruct IH as [IHk IHok].
    { intros kv Hkv. apply Hsub. now right. }
    destruct (Dict.mem pdf metric); simpl; [now split|].
    rewrite IHk. split; [reflexivity|]. constructor; [|assumption].
    unfold excel_row_ok. simpl. repeat split. exists v. split; [reflexivity|].
    apply Hsub. now left.
Qed.

End CompareValuesFacts.

(** C9. The comparator returns one row per metric of the union of the
    two dictionaries' keys: no metric twice, and a metric has a row
    exactly when it is a key of either dictionary. The row of a metric
    missing from the tabular dictionary has no tabular side and status
    No Match; the row of a metric missing from the narrative dictionary
    has no narrative side and status No Match. *)
Theorem comparison_rows_cover_union (fmt : float -> string)
    (pdf : Dict.dict Main.pdf_info) (excel : Dict.dict float) (tol : float) :
  NoDup (Dict.keys pdf) -> NoDup (Dict.keys excel) ->
  exists results,
    Main.compare_values fmt pdf excel tol = Some results
    /\ NoDup (map Main.c_metric results)
    /\ (forall m, m ∈ map Main.c_metric results
                  <-> m ∈ Dict.keys pdf \/ m ∈ Dict.keys excel)
    /\ (forall r, r ∈ results -> Main.c_metric r ∉ Dict.keys excel ->
          Main.c_pdf r <> None /\ Main.c_excel r = Main.ExcelNone
          /\ Main.c_status r = Main.NoMatch)
    /\ (forall r, r ∈ results -> Main.c_metric r ∉ Dict.keys pdf ->
          Main.c_pdf r = None /\ Main.c_excel r <> Main.ExcelNone
          /\ Main.c_status r = Main.NoMatch).
Proof.
  intros Hpdf Hexcel.
  destruct (pdf_loop_spec fmt excel tol pdf) as (rs & log & Hloop & Hk & Hok).
  destruct (excel_loop_spec excel pdf excel) as [Hk2 Hok2]; [auto|].
  unfold Main.compare_values. rewrite Hloop.
  eexists. split; [reflexivity|].
  assert (Hin2 : forall m,
            m ∈ map Main.c_metric (Main.excel_loop excel pdf)
            <-> m ∈ Dict.keys excel /\ m ∉ Dict.keys pdf).
  { intros m. rewrite Hk2, list_elem_of_In, filter_In, negb_true_iff.
    rewrite mem_false_keys, <- list_elem_of_In. reflexivity. }
  rewrite map_app, Hk.
  split; [|split; [|split]].
  - apply NoDup_app. split; [assumption|]. split.
    + intros m Hm Hm2. apply Hin2 in Hm2. tauto.
    + rewrite Hk2. apply NoDup_ListNoDup, List.NoDup_filter.
      now apply NoDup_ListNoDup.
  - intros m. rewrite elem_of_app, Hin2.
    destruct (decide (m ∈ Dict.keys pdf)); tauto.
  - intros r Hr Hn. apply elem_of_app in Hr as [Hr|Hr].
    + rewrite Forall_forall in Hok. destruct (Hok r) as [Hp Hx].
      { assumption. }
      destruct (Hx Hn). auto.
    + exfalso. apply Hn.
      apply (Hin2 (Main.c_metric r)). apply list_elem_of_fmap; eauto.
  - intros r Hr Hn. apply elem_of_app in Hr as [Hr|Hr].
    + exfalso. apply Hn. rewrite <- Hk. apply list_elem_of_fmap; eauto.
    + rewrite Forall_forall in Hok2. destruct (Hok2 r) as (Hp & Hs & v & Hv & _).
      { assumption. }
      rewrite Hv. repeat split; [assumption|discriminate|assumption].
Qed.

Lemma comparison_rows_cover_union_witness :
  exists results,
    Main.compare_values (fun _ => "x")
      [("Revenues", {| Main.value := 20; Main.unit := "B" |});
       ("Net income", {| Main.value := 3; Main.unit := "B" |})]
      [("Net income", 3%float); ("Headcount", 7%float)] 0.05
    = Some results
    /\ map Main.c_metric results = ["Revenues"; "Net income"; "Headcount"].
Proof.
  destruct (comparison_rows_cover_union (fun _ => "x")
              [("Revenues", {| Main.value := 20; Main.unit := "B" |});
               ("Net income", {| Main.value := 3; Main.unit := "B" |})]
              [("Net income", 3%float); ("Headcount", 7%float)] 0.05%float)
    as (results & Hc & _).
  - apply (bool_decide_unpack _). vm_compute. exact I.
  - apply (bool_decide_unpack _). vm_compute. exact I.
  - exists results. split; [exact Hc|].
    vm_compute in Hc. injection Hc as <-. reflexivity.
Defined.

(* ================================================================== *)
(** ** The fuzzy row matcher *)

Section DictSet.
Context {V : Type}.



End DictSet.

Section RowMatcher.
Import ExcelReader.
Open Scope float_scope.

Variable normalized_metric : string.
Variables text_idx column_index : nat.







End RowMatcher.

Section Collect.
Import ExcelReader.
Open Scope float_scope.

Variable df : grid.
Variables text_idx column_index : nat.





End Collect.

Section TangibleRow.
Import ExcelReader.
Open Scope float_scope.



End TangibleRow.





(* ================================================================== *)
(** ** The spreadsheet header and column locator *)

Section LocatorFacts.
Import ExcelReader.


Lemma detect_loop_past (rows : grid) (idx i : nat) :
  i + 1 < idx -> detect_loop rows idx (Some i) = (Some i, None).
Proof.
  revert idx. induction rows as [|r rows IH]; intros idx Hlt; simpl.
  - reflexivity.
  - replace (Nat.eqb idx (i + 1)) with false
      by (symmetry; apply Nat.eqb_neq; lia).
    simpl. apply IH. lia.
Qed.

Lemma detect_loop_next (rows : grid) (i : nat) :
  detect_loop rows (i + 1) (Some i)
  = (Some i,
     match rows with
     | r :: _ => if Nat.ltb 1 (year_count r) then Some (i + 1) else None
     | [] => None
     end).
Proof.
  destruct rows as [|r rows]; simpl; [reflexivity|].
  rewrite Nat.eqb_refl. simpl.
  destruct (Nat.ltb 1 (year_count r)); [reflexivity|].
  apply detect_loop_past. lia.
Qed.

Lemma detect_loop_scan (rows : grid) (idx : nat) :
  match detect_loop rows idx None with
  | (None, y) => y = None /\ Forall (fun r => q_count r <= 1) rows
  | (Some i, y) =>
      exists k r,
        i = idx + k /\ rows !! k = Some r /\ 1 < q_count r
        /\ Forall (fun r' => q_count r' <= 1) (take k rows)
        /\ y = match rows !! (k + 1) with
               | Some r2 => if Nat.ltb 1 (year_count r2) then Some (i + 1)
                            else None
               | None => None
               end
  end.
Proof.
  revert idx. induction rows as [|r rows IH]; intros idx; simpl.
  - split; [reflexivity|constructor].
  - destruct (Nat.ltb 1 (q_count r)) eqn:Hq.
    + replace (Nat.eqb idx (idx + 1)) with false
        by (symmetry; apply Nat.eqb_neq; lia).
      simpl. replace (S idx) with (idx + 1) by lia.
      rewrite detect_loop_next.
      exists 0, r. apply Nat.ltb_lt in Hq.
      split; [lia|]. split; [reflexivity|]. split; [assumption|].
      split; [constructor|]. simpl. destruct rows; reflexivity.
    + specialize (IH (S idx)). apply Nat.ltb_ge in Hq.
      destruct (detect_loop rows (S idx) None) as [[i|] y].
      * destruct IH as (k & r' & -> & Hk & Hr' & Hbefore & ->).
        exists (S k), r'. split; [lia|]. split; [assumption|].
        split; [assumption|]. split.
        -- simpl. now constructor.
        -- simpl. replace (S idx + k + 1) with (idx + S k + 1) by lia.
           reflexivity.
      * destruct IH as [-> Hall]. split; [reflexivity|now constructor].
Qed.

Lemma detect_header_rows_spec (df : grid) :
  match detect_header_rows df with
  | (None, y) => y = None /\ Forall (fun r => q_count r <= 1) df
  | (Some i, y) =>
      (exists r, df !! i = Some r /\ 1 < q_count r)
      /\ Forall (fun r' => q_count r' <= 1) (take i df)
      /\ y = year_row_after df i
  end.
Proof.
  unfold detect_header_rows, year_row_after.
  pose proof (detect_loop_scan df 0) as H.
  destruct (detect_loop df 0 None) as [[i|] y]; [|assumption].
  destruct H as (k & r & -> & Hk & Hr & Hbefore & ->). simpl. eauto.
Qed.

Lemma find_column_spec (quarter year : string) (qrow yrow : list string)
    (k c : nat) :
  find_column quarter year qrow yrow k = Some c <->
  k <= c
  /\ (exists q y, qrow !! (c - k) = Some q /\ yrow !! (c - k) = Some y
                  /\ column_matches quarter year q y = true)
  /\ (forall j q y, j < c - k -> qrow !! j = Some q -> yrow !! j = Some y ->
                    column_matches quarter year q y = false).
Proof.
  revert yrow k. induction qrow as [|q qrow IH]; intros yrow k; simpl.
  - split; [discriminate|]. intros (_ & (q & y & Hq & _) & _). discriminate.
  - destruct yrow as [|y yrow].
    { split; [discriminate|]. intros (_ & (q' & y' & _ & Hy & _) & _).
      discriminate. }
    destruct (column_matches quarter year q y) eqn:Hm.
    + split.
      * intros [= <-]. rewrite Nat.sub_diag. split; [lia|]. split.
        -- exists q, y. auto.
        -- intros j ? ? Hj. lia.
      * intros (Hle & _ & Hfirst).
        destruct (decide (c = k)) as [->|Hne]; [reflexivity|].
        specialize (Hfirst 0 q y). simpl in Hfirst.
        rewrite Hfirst in Hm; [discriminate|lia|reflexivity|reflexivity].
    + rewrite IH. split.
      * intros (Hle & (q' & y' & Hq' & Hy' & Hm') & Hfirst).
        replace (c - k) with (S (c - S k)) by lia.
        split; [lia|]. split; [exists q', y'; auto|].
        intros [|j] q2 y2 Hj; simpl.
        -- intros [= <-] [= <-]. exact Hm.
        -- apply Hfirst. lia.
      * intros (Hle & (q' & y' & Hq' & Hy' & Hm') & Hfirst).
        assert (c <> k).
        { intros ->. rewrite Nat.sub_diag in Hq', Hy'. simpl in Hq', Hy'.
          congruence. }
        replace (c - k) with (S (c - S k)) in * by lia. simpl in Hq', Hy'.
        split; [lia|]. split; [exists q', y'; auto|].
        intros j q2 y2 Hj. apply (Hfirst (S j)). lia.
Qed.

End LocatorFacts.

(** C8. The quarter header is the first row with more than one quarter
    token, and the year header can only be the row right after it: it
    is that row when it holds more than one four-digit cell, and
    otherwise no year header is reported (later rows are not
    considered) and the column locator answers (None, None). A
    returned year row is always the quarter row's index plus one. *)
Theorem year_row_is_direct_successor (df : ExcelReader.grid) :
  (forall i, fst (ExcelReader.detect_header_rows df) = Some i ->
     (exists r, df !! i = Some r /\ 1 < ExcelReader.q_count r)
     /\ (forall i' r', i' < i -> df !! i' = Some r' ->
                       ExcelReader.q_count r' <= 1)
     /\ ((forall r, df !! (i + 1) = Some r -> ExcelReader.year_count r <= 1) ->
         snd (ExcelReader.detect_header_rows df) = None
         /\ forall quarter year,
              ExcelReader.find_column_index_for_quarter_year df quarter year
              = (None, None))
     /\ (forall r, df !! (i + 1) = Some r -> 1 < ExcelReader.year_count r ->
         snd (ExcelReader.detect_header_rows df) = Some (i + 1)))
  /\ (forall j, snd (ExcelReader.detect_header_rows df) = Some j ->
        exists i, fst (ExcelReader.detect_header_rows df) = Some i
                  /\ j = i + 1).
Proof.
  pose proof (detect_header_rows_spec df) as H.
  unfold ExcelReader.find_column_index_for_quarter_year.
  destruct (ExcelReader.detect_header_rows df) as [[i|] y]; simpl.
  - destruct H as (Hrow & Hbefore & ->). unfold year_row_after. split.
    + intros ? [= <-]. split; [assumption|]. split; [|split].
      * intros i' r' Hlt Hr'. rewrite Forall_forall in Hbefore.
        apply Hbefore. apply list_elem_of_lookup_2 with i'.
        rewrite lookup_take_lt; assumption.
      * intros Hnext. destruct (df !! (i + 1)) as [r|]; [|auto].
        specialize (Hnext r eq_refl).
        replace (Nat.ltb 1 (ExcelReader.year_count r)) with false; [auto|].
        symmetry. apply Nat.ltb_ge. lia.
      * intros r Hr Hyc. rewrite Hr.
        apply Nat.ltb_lt in Hyc. now rewrite Hyc.
    + intros j Hj. exists i. split; [reflexivity|].
      destruct (df !! (i + 1)) as [r|]; [|discriminate].
      destruct (Nat.ltb 1 (ExcelReader.year_count r)); congruence.
  - destruct H as [-> _]. split; [discriminate|]. discriminate.
Qed.

Lemma year_row_is_direct_successor_witness :
  snd (ExcelReader.detect_header_rows
         [[Some "3Q"; Some "2Q"]; [Some "actual"; Some "actual"];
          [Some "2024"; Some "2024"]]) = None.
Proof.
  destruct (year_row_is_direct_successor
              [[Some "3Q"; Some "2Q"]; [Some "actual"; Some "actual"];
               [Some "2024"; Some "2024"]]) as (H & _).
  destruct (H 0) as (_ & _ & Hnone & _); [vm_compute; reflexivity|].
  apply Hnone. intros r [= <-]. vm_compute. lia.
Defined.

(** C7. The column test compares character sets, so "Q3" and "3Q"
    match each other (with the year cell equal, once stripped, to the
    target year); and the column returned is the leftmost one that
    passes the test on both header rows. The test has two parts and
    needs both: the characters of the quarter cell (stripped,
    uppercased) are those of the target quarter, and the year cell,
    stripped, is the target year; a column whose year cell differs is
    passed over whatever its quarter cell, as the 2023 column is for
    the target Q3 2024. *)
Theorem quarter_character_set_match :
  PyStr.char_set "Q3" = PyStr.char_set "3Q"
  /\ (forall y : string,
        ExcelReader.column_matches "Q3" (PyStr.strip y) "3Q" y = true
        /\ ExcelReader.column_matches "3Q" (PyStr.strip y) "Q3" y = true)
  /\ (forall (df : ExcelReader.grid) (quarter year : string) (qi yi c : nat),
        ExcelReader.detect_header_rows df = (Some qi, Some yi) ->
        let quarter_row := map ExcelReader.fillna_str (ExcelReader.iloc df qi) in
        let year_row := map ExcelReader.fillna_str (ExcelReader.iloc df yi) in
        ExcelReader.find_column_index_for_quarter_year df quarter year
        = (Some yi, Some c)
        <-> (exists q y, quarter_row !! c = Some q /\ year_row !! c = Some y
                /\ ExcelReader.column_matches quarter year q y = true)
            /\ (forall c' q y, c' < c ->
                  quarter_row !! c' = Some q -> year_row !! c' = Some y ->
                  ExcelReader.column_matches quarter year q y = false))
  /\ (forall quarter year q y : string,
        ExcelReader.column_matches quarter year q y = true
        <-> PyStr.char_set (PyStr.upper quarter)
            = PyStr.char_set (PyStr.upper (PyStr.strip q))
            /\ PyStr.strip y = year)
  /\ (forall quarter year q y : string,
        PyStr.strip y <> year ->
        ExcelReader.column_matches quarter year q y = false)
  /\ ExcelReader.column_matches "Q3" "2024" "3Q" "2023" = false
  /\ ExcelReader.find_column_index_for_quarter_year
       [[None; Some "3Q"; Some "3Q"]; [None; Some "2023"; Some "2024"]]
       "Q3" "2024"
     = (Some 1, Some 2).
Proof.
  split; [|split; [|split; [|split; [|split; [|split]]]]].
  - unfold PyStr.char_set. simpl. set_solver.
  - intros y. unfold ExcelReader.column_matches.
    rewrite String.eqb_refl, !andb_true_r.
    split; vm_compute; reflexivity.
  - intros df quarter year qi yi c Hdet quarter_row year_row.
    unfold ExcelReader.find_column_index_for_quarter_year. rewrite Hdet.
    fold quarter_row year_row.
    pose proof (find_column_spec quarter year quarter_row year_row 0 c) as H.
    rewrite Nat.sub_0_r in H. split.
    + intros [= Hc]. apply H in Hc. tauto.
    + intros [Hex Hfirst]. f_equal. apply H. split; [lia|]. split; assumption.
  - intros quarter year q y. unfold ExcelReader.column_matches.
    now rewrite andb_true_iff, bool_decide_eq_true, String.eqb_eq.
  - intros quarter year q y Hy. unfold ExcelReader.column_matches.
    apply String.eqb_neq in Hy. rewrite Hy. apply andb_false_r.
  - vm_compute. reflexivity.
  - vm_compute. reflexivity.
Qed.

Lemma quarter_character_set_match_witness :
  ExcelReader.find_column_index_for_quarter_year
    [[None; Some "2Q"; Some " 3q "; Some "Q3"];
     [None; Some "2024"; Some "2024"; Some "2024"]] "Q3" "2024"
  = (Some 1, Some 2)
  /\ ExcelReader.find_column_index_for_quarter_year
       [[None; Some "3Q"; Some "3Q"]; [None; Some "2023"; Some "2024"]]
       "Q3" "2024"
     = (Some 1, Some 2).
Proof.
  destruct quarter_character_set_match as (_ & _ & H & _ & Hyear & _). split.
  - apply (H _ "Q3" "2024" 0 1 2); [vm_compute; reflexivity|]. split.
    + exists " 3q ", "2024". repeat split; vm_compute; reflexivity.
    + intros c' q y Hc Hq Hy. destruct c' as [|[|c']]; [| |lia];
        vm_compute in Hq, Hy; injection Hq as <-; injection Hy as <-;
        vm_compute; reflexivity.
  - apply (H _ "Q3" "2024" 0 1 2); [vm_compute; reflexivity|]. split.
    + exists "3Q", "2024". repeat split; vm_compute; reflexivity.
    + intros c' q y Hc Hq Hy. destruct c' as [|[|c']]; [| |lia];
        vm_compute in Hq, Hy; injection Hq as <-; injection Hy as <-;
        apply Hyear; vm_compute; discriminate.
Defined.

(** C10. When the locator answers with column index 0, or with year
    header row 0, the Excel entry point takes the answer for a failure
    and returns the empty mapping (it returns: no row is read). *)
Theorem zero_index_is_treated_as_not_found (excel_path : string)
    (summary_df : ExcelReader.grid) (quarter year : string)
    (header_row column_index : option nat) :
  Utils.find_quarter_year_from_filename excel_path = (Some quarter, Some year) ->
  ExcelReader.find_column_index_for_quarter_year summary_df quarter year
  = (header_row, column_index) ->
  header_row = Some 0 \/ column_index = Some 0 ->
  ExcelReader.get_metrics_values_from_excel excel_path summary_df = Some [].
Proof.
  intros Hname Hloc Hzero. unfold ExcelReader.get_metrics_values_from_excel.
  rewrite Hname. simpl. rewrite Hloc.
  destruct (negb (PyStr.truthy quarter) || negb (PyStr.truthy year));
    [reflexivity|].
  destruct Hzero as [-> | ->]; simpl; [reflexivity|].
  now rewrite orb_true_r.
Qed.

Lemma zero_index_is_treated_as_not_found_witness :
  ExcelReader.find_column_index_for_quarter_year
    [[Some "3Q"; Some "2Q"]; [Some "2024"; Some "2024"];
     [Some "Revenues"; Some "20.3"]] "Q3" "2024" = (Some 1, Some 0)
  /\ ExcelReader.get_metrics_from_df
       [[Some "3Q"; Some "2Q"]; [Some "2024"; Some "2024"];
        [Some "Revenues"; Some "20.3"]] 2 1
     = Some [("Revenues", Some "20.3")]
  /\ ExcelReader.get_metrics_values_from_excel "2024Q3.xlsx"
       [[Some "3Q"; Some "2Q"]; [Some "2024"; Some "2024"];
        [Some "Revenues"; Some "20.3"]] = Some [].
Proof.
  split; [vm_compute; reflexivity|]. split; [vm_compute; reflexivity|].
  apply (zero_index_is_treated_as_not_found "2024Q3.xlsx" _ "Q3" "2024"
           (Some 1) (Some 0)).
  - vm_compute; reflexivity.
  - vm_compute; reflexivity.
  - now right.
Defined.

(* ================================================================== *)
(** ** Order facts: binary64 comparison away from NaN, strings *)

Section SpecFloatOrder.

Lemma SFcompare_refl (f : spec_float) :
  f <> S754_nan -> SFcompare f f = Some Eq.
Proof.
  destruct f as [s|s| |s m e]; intros Hf; try congruence;
    destruct s; simpl; try reflexivity; compare_cases.
Qed.

Lemma SFcompare_defined (f1 f2 : spec_float) :
  f1 <> S754_nan -> f2 <> S754_nan -> SFcompare f1 f2 <> None.
Proof.
  destruct f1 as [s1|s1| |s1 m1 e1], f2 as [s2|s2| |s2 m2 e2];
    intros H1 H2; simpl; congruence.
Qed.

Lemma SFcompare_antisym (f1 f2 : spec_float) (c : comparison) :
  SFcompare f1 f2 = Some c -> SFcompare f2 f1 = Some (CompOpp c).
Proof.
  destruct f1 as [s1|s1| |s1 m1 e1], f2 as [s2|s2| |s2 m2 e2];
    try destruct s1; try destruct s2; simpl; intros [= <-];
    try reflexivity; compare_cases.
Qed.

Lemma SFcompare_trans (f1 f2 f3 : spec_float) (c1 c2 : comparison) :
  SFcompare f1 f2 = Some c1 -> SFcompare f2 f3 = Some c2 ->
  c1 <> Gt -> c2 <> Gt ->
  SFcompare f1 f3 = Some (match c1 with Eq => c2 | _ => Lt end).
Proof.
  destruct f1 as [s1|s1| |s1 m1 e1], f2 as [s2|s2| |s2 m2 e2],
    f3 as [s3|s3| |s3 m3 e3];
    try destruct s1; try destruct s2; try destruct s3; simpl;
    intros H1 H2 Hc1 Hc2; try congruence;
    injection H1 as <-; injection H2 as <-; try congruence;
    compare_cases.
Qed.

End SpecFloatOrder.

Section FloatOrder.
Open Scope float_scope.


Lemma not_nan_spec (x : float) : not_nan x <-> Prim2SF x <> S754_nan.
Proof.
  unfold not_nan. rewrite FloatAxioms.eqb_spec. unfold SFeqb. split.
  - intros H E. rewrite E in H. discriminate.
  - intros H. now rewrite SFcompare_refl.
Qed.

Lemma feqb_not_nan (x y : float) : (x =? y) = true -> not_nan x /\ not_nan y.
Proof.
  rewrite FloatAxioms.eqb_spec, !not_nan_spec. unfold SFeqb.
  destruct (Prim2SF x), (Prim2SF y); simpl; try discriminate;
    split; discriminate.
Qed.

Lemma fltb_not_nan (x y : float) : (x <? y) = true -> not_nan x /\ not_nan y.
Proof.
  rewrite FloatAxioms.ltb_spec, !not_nan_spec. unfold SFltb.
  destruct (Prim2SF x), (Prim2SF y); simpl; try discriminate;
    split; discriminate.
Qed.

Lemma feqb_sym (x y : float) : (x =? y) = true -> (y =? x) = true.
Proof.
  rewrite !FloatAxioms.eqb_spec. unfold SFeqb.
  destruct (SFcompare (Prim2SF x) (Prim2SF y)) as [[]|] eqn:E;
    try discriminate.
  now rewrite (SFcompare_antisym _ _ _ E).
Qed.

Lemma feqb_trans (x y z : float) :
  (x =? y) = true -> (y =? z) = true -> (x =? z) = true.
Proof.
  rewrite !FloatAxioms.eqb_spec. unfold SFeqb.
  destruct (SFcompare (Prim2SF x) (Prim2SF y)) as [[]|] eqn:E1;
    try discriminate.
  destruct (SFcompare (Prim2SF y) (Prim2SF z)) as [[]|] eqn:E2;
    try discriminate.
  now rewrite (SFcompare_trans _ _ _ _ _ E1 E2).
Qed.

Lemma fltb_trans (x y z : float) :
  (x <? y) = true -> (y <? z) = true -> (x <? z) = true.
Proof.
  rewrite !FloatAxioms.ltb_spec. unfold SFltb.
  destruct (SFcompare (Prim2SF x) (Prim2SF y)) as [[]|] eqn:E1;
    try discriminate.
  destruct (SFcompare (Prim2SF y) (Prim2SF z)) as [[]|] eqn:E2;
    try discriminate.
  now rewrite (SFcompare_trans _ _ _ _ _ E1 E2).
Qed.

Lemma fltb_feqb_trans (x y z : float) :
  (x <? y) = true -> (y =? z) = true -> (x <? z) = true.
Proof.
  rewrite !FloatAxioms.ltb_spec, FloatAxioms.eqb_spec. unfold SFltb, SFeqb.
  destruct (SFcompare (Prim2SF x) (Prim2SF y)) as [[]|] eqn:E1;
    try discriminate.
  destruct (SFcompare (Prim2SF y) (Prim2SF z)) as [[]|] eqn:E2;
    try discriminate.
  now rewrite (SFcompare_trans _ _ _ _ _ E1 E2).
Qed.

Lemma feqb_fltb_trans (x y z : float) :
  (x =? y) = true -> (y <? z) = true -> (x <? z) = true.
Proof.
  rewrite !FloatAxioms.ltb_spec, FloatAxioms.eqb_spec. unfold SFltb, SFeqb.
  destruct (SFcompare (Prim2SF x) (Prim2SF y)) as [[]|] eqn:E1;
    try discriminate.
  destruct (SFcompare (Prim2SF y) (Prim2SF z)) as [[]|] eqn:E2;
    try discriminate.
  now rewrite (SFcompare_trans _ _ _ _ _ E1 E2).
Qed.

Lemma fltb_not_feqb (x y : float) :
  (x <? y) = true -> (x =? y) = false /\ (y =? x) = false.
Proof.
  rewrite FloatAxioms.ltb_spec, !FloatAxioms.eqb_spec. unfold SFltb, SFeqb.
  destruct (SFcompare (Prim2SF x) (Prim2SF y)) as [[]|] eqn:E;
    try discriminate.
  now rewrite (SFcompare_antisym _ _ _ E).
Qed.

Lemma fltb_connected (x y : float) :
  not_nan x -> not_nan y ->
  (x =? y) = false -> (x <? y) = false -> (y <? x) = true.
Proof.
  rewrite !not_nan_spec, !FloatAxioms.ltb_spec, FloatAxioms.eqb_spec.
  unfold SFltb, SFeqb. intros Hx Hy.
  pose proof (SFcompare_defined _ _ Hx Hy) as Hd.
  destruct (SFcompare (Prim2SF x) (Prim2SF y)) as [[]|] eqn:E;
    try discriminate; [|congruence].
  now rewrite (SFcompare_antisym _ _ _ E).
Qed.

End FloatOrder.

Section StringOrder.

Lemma sltb_leb (a b : string) : String.ltb a b = negb (String.leb b a).
Proof.
  unfold String.ltb, String.leb. rewrite (String.compare_antisym a b).
  destruct (String.compare b a); reflexivity.
Qed.

Lemma sleb_trans (a b c : string) :
  String.leb a b = true -> String.leb b c = true -> String.leb a c = true.
Proof.
  intros H1 H2. apply Is_true_true.
  apply (transitivity (R := String.le) (y := b)); now apply Is_true_true.
Qed.

Lemma sleb_refl (a : string) : String.leb a a = true.
Proof. apply Is_true_true. apply (reflexivity (R := String.le)). Qed.

Lemma sltb_trans (a b c : string) :
  String.ltb a b = true -> String.ltb b c = true -> String.ltb a c = true.
Proof.
  rewrite !sltb_leb, !negb_true_iff. intros H1 H2.
  destruct (String.leb c a) eqn:E; [|reflexivity].
  destruct (String.leb_total a b) as [Hab|Hba]; [|congruence].
  rewrite (sleb_trans c a b E Hab) in H2. discriminate.
Qed.

Lemma sltb_irrefl (a : string) : String.ltb a a = false.
Proof. now rewrite sltb_leb, sleb_refl. Qed.

Lemma sltb_connected (a b : string) :
  String.eqb a b = false -> String.ltb a b = false -> String.ltb b a = true.
Proof.
  rewrite !sltb_leb, negb_false_iff, negb_true_iff. intros Hne Hba.
  destruct (String.leb a b) eqn:Hab; [|reflexivity].
  apply String.eqb_neq in Hne. exfalso. apply Hne.
  now apply String.leb_antisym.
Qed.

Lemma sltb_leb_true (a b : string) :
  String.ltb a b = true -> String.leb a b = true.
Proof.
  rewrite sltb_leb, negb_true_iff. intros H.
  destruct (String.leb_total a b); congruence.
Qed.

End StringOrder.

(* ================================================================== *)
(** ** Grouping and selection in the PDF reader *)

Section GroupOrder.
Import PdfReader.


Lemma g_eqb_iff (a b : group_row) :
  g_eqb a b = true <->
  g_metric a = g_metric b /\ PrimFloat.eqb (g_value a) (g_value b) = true
  /\ g_unit a = g_unit b.
Proof.
  unfold g_eqb, key_eqb. rewrite !andb_true_iff, !String.eqb_eq. tauto.
Qed.

Lemma g_lt_iff (a b : group_row) :
  g_lt a b <->
  String.ltb (g_metric a) (g_metric b) = true
  \/ (g_metric a = g_metric b
      /\ (PrimFloat.ltb (g_value a) (g_value b) = true
          \/ (PrimFloat.eqb (g_value a) (g_value b) = true
              /\ String.ltb (g_unit a) (g_unit b) = true))).
Proof.
  unfold g_lt, key_ltb.
  rewrite !orb_true_iff, !andb_true_iff, !orb_true_iff, !andb_true_iff,
    String.eqb_eq. tauto.
Qed.

Lemma g_eqb_refl (a : group_row) : g_valid a -> g_eqb a a = true.
Proof. intros Ha. apply g_eqb_iff. auto. Qed.

Lemma g_eqb_sym (a b : group_row) : g_eqb a b = true -> g_eqb b a = true.
Proof.
  rewrite !g_eqb_iff. intros (Hm & Hv & Hu). auto using feqb_sym.
Qed.

Lemma g_eqb_trans (a b c : group_row) :
  g_eqb a b = true -> g_eqb b c = true -> g_eqb a c = true.
Proof.
  rewrite !g_eqb_iff. intros (Hm & Hv & Hu) (Hm' & Hv' & Hu').
  repeat split; try congruence. eauto using feqb_trans.
Qed.

Lemma g_eqb_same (p a b : group_row) :
  g_eqb a b = true -> g_eqb p a = g_eqb p b.
Proof.
  intros Hab. destruct (g_eqb p a) eqn:Ha, (g_eqb p b) eqn:Hb; try reflexivity.
  - rewrite (g_eqb_trans p a b) in Hb; auto.
  - rewrite (g_eqb_trans p b a) in Ha; auto using g_eqb_sym.
Qed.

Lemma g_lt_trans (a b c : group_row) : g_lt a b -> g_lt b c -> g_lt a c.
Proof.
  rewrite !g_lt_iff.
  intros [Hab|(Hab & Hvab)] [Hbc|(Hbc & Hvbc)].
  - left. eauto using sltb_trans.
  - left. congruence.
  - left. congruence.
  - right. split; [congruence|].
    destruct Hvab as [Hl|(He & Hu)], Hvbc as [Hl'|(He' & Hu')].
    + left. eauto using fltb_trans.
    + left. eauto using fltb_feqb_trans.
    + left. eauto using feqb_fltb_trans.
    + right. eauto using feqb_trans, sltb_trans.
Qed.

Lemma g_lt_not_eqb (a b : group_row) :
  g_lt a b -> g_eqb a b = false /\ g_eqb b a = false.
Proof.
  rewrite g_lt_iff. intros H.
  assert (Hn : ~ (g_eqb a b = true \/ g_eqb b a = true)).
  { rewrite !g_eqb_iff. intros Heq.
    assert (Hm : g_metric a = g_metric b) by (destruct Heq; intuition congruence).
    assert (Hu : g_unit a = g_unit b) by (destruct Heq; intuition congruence).
    assert (Hv : PrimFloat.eqb (g_value a) (g_value b) = true).
    { destruct Heq as [?|(_ & ? & _)]; [tauto|now apply feqb_sym]. }
    destruct H as [H|(_ & [H|(_ & H)])].
    - rewrite Hm, sltb_irrefl in H. discriminate.
    - apply fltb_not_feqb in H. destruct H. congruence.
    - rewrite Hu, sltb_irrefl in H. discriminate. }
  destruct (g_eqb a b), (g_eqb b a); tauto.
Qed.

Lemma g_lt_connected (a b : group_row) :
  g_valid a -> g_valid b -> g_eqb a b = false ->
  key_ltb (g_metric a) (g_value a) (g_unit a) b = false -> g_lt b a.
Proof.
  unfold g_valid. intros Ha Hb Hne Hnlt. apply g_lt_iff.
  unfold g_eqb, key_eqb in Hne. unfold key_ltb in Hnlt.
  apply orb_false_iff in Hnlt as [Hm Hrest].
  destruct (String.eqb (g_metric a) (g_metric b)) eqn:Em.
  - apply String.eqb_eq in Em. right. split; [congruence|].
    simpl in Hne, Hrest. apply orb_false_iff in Hrest as [Hv Hrest].
    destruct (PrimFloat.eqb (g_value a) (g_value b)) eqn:Ev.
    + simpl in Hne, Hrest. right. split; [now apply feqb_sym|].
      now apply sltb_connected.
    + left. now apply fltb_connected.
  - left. now apply sltb_connected.
Qed.

End GroupOrder.

Section Grouping.
Import PdfReader.


Lemma add_to_groups_Forall (P : group_row -> Prop) (m : string) (v : float)
    (u : string) (gs : list group_row) :
  Forall P gs -> P (as_group m v u) -> (forall g, P g -> P (bump g)) ->
  Forall P (add_to_groups m v u gs).
Proof.
  intros Hgs Hnew Hbump. induction Hgs as [|g gs Hg Hgs IH]; simpl.
  - constructor; [exact Hnew|constructor].
  - destruct (key_eqb m v u g); [constructor; auto|].
    destruct (key_ltb m v u g); repeat constructor; auto.
Qed.

Lemma add_to_groups_sorted (m : string) (v : float) (u : string)
    (gs : list group_row) :
  not_nan v -> StronglySorted g_lt gs -> Forall g_valid gs ->
  StronglySorted g_lt (add_to_groups m v u gs).
Proof.
  intros Hv Hs Hval. induction Hs as [|g gs Hs IH Hall]; simpl.
  - repeat constructor.
  - apply Forall_cons in Hval as [Hg Hval].
    destruct (key_eqb m v u g) eqn:He.
    + constructor; [assumption|].
      eapply Forall_impl; [exact Hall|]. intros g' Hg'. exact Hg'.
    + destruct (key_ltb m v u g) eqn:Hl.
      * constructor; [now constructor|]. constructor; [exact Hl|].
        eapply Forall_impl; [exact Hall|]. intros g' Hg'.
        eapply g_lt_trans; [|exact Hg']. exact Hl.
      * constructor; [auto|].
        apply add_to_groups_Forall; [assumption| |auto].
        apply (g_lt_connected (as_group m v u) g); assumption.
Qed.

Lemma cnt_add_to_groups (p : group_row) (m : string) (v : float) (u : string)
    (gs : list group_row) :
  cnt p (add_to_groups m v u gs)
  = cnt p gs + (if g_eqb p (as_group m v u) then 1 else 0).
Proof.
  induction gs as [|g gs IH]; cbn [add_to_groups cnt].
  - fold (as_group m v u). change (counts (as_group m v u)) with 1. lia.
  - destruct (key_eqb m v u g) eqn:He.
    + cbn [cnt]. change (g_eqb p (bump g)) with (g_eqb p g).
      change (counts (bump g)) with (S (counts g)).
      rewrite (g_eqb_same p (as_group m v u) g He).
      destruct (g_eqb p g); lia.
    + destruct (key_ltb m v u g); cbn [cnt].
      * fold (as_group m v u). change (counts (as_group m v u)) with 1. lia.
      * rewrite IH. lia.
Qed.

Lemma is_nan_false (v : float) : PyFloat.is_nan v = false <-> not_nan v.
Proof. unfold PyFloat.is_nan, not_nan. apply negb_false_iff. Qed.

Lemma matches_nan (p : group_row) (m : string) (v : float) (u : string) :
  PyFloat.is_nan v = true -> g_eqb p (as_group m v u) = false.
Proof.
  intros Hnan. destruct (g_eqb p (as_group m v u)) eqn:E; [|reflexivity].
  apply g_eqb_iff in E as (_ & E & _). simpl in E.
  apply feqb_not_nan in E as [_ E]. apply is_nan_false in E. congruence.
Qed.

Lemma cnt_add_row (p : group_row) (gs : list group_row) (o : observation) :
  cnt p (add_row gs o) = cnt p gs + (if matches p o then 1 else 0).
Proof.
  unfold add_row, matches. destruct (o_unit o) as [u|]; [|lia].
  destruct (PyFloat.is_nan (o_value o)) eqn:Hnan.
  - rewrite matches_nan by assumption. lia.
  - apply cnt_add_to_groups.
Qed.


Lemma df_grouped_snoc (rows : list observation) (o : observation) :
  df_grouped (rows ++ [o]) = add_row (df_grouped rows) o.
Proof. unfold df_grouped. now rewrite fold_left_app. Qed.

Lemma df_grouped_inv (rows : list observation) :
  StronglySorted g_lt (df_grouped rows)
  /\ Forall g_valid (df_grouped rows)
  /\ Forall (from_rows rows) (df_grouped rows)
  /\ forall p, cnt p (df_grouped rows) = occ_g p rows.
Proof.
  induction rows as [|o rows (Hs & Hv & Hf & Hc)] using rev_ind.
  - repeat split; constructor.
  - rewrite df_grouped_snoc.
    assert (Hf' : Forall (from_rows (rows ++ [o])) (df_grouped rows)).
    { eapply Forall_impl; [exact Hf|]. intros g (o' & Ho' & Hrest).
      exists o'. split; [|exact Hrest]. apply elem_of_app. now left. }
    split; [|split; [|split]].
    + unfold add_row. destruct (o_unit o); [|assumption].
      destruct (PyFloat.is_nan (o_value o)) eqn:Hnan; [assumption|].
      apply add_to_groups_sorted; try assumption. now apply is_nan_false.
    + unfold add_row. destruct (o_unit o); [|assumption].
      destruct (PyFloat.is_nan (o_value o)) eqn:Hnan; [assumption|].
      apply add_to_groups_Forall; [assumption| |auto].
      now apply is_nan_false.
    + unfold add_row. destruct (o_unit o) as [u|] eqn:Hu; [|assumption].
      destruct (PyFloat.is_nan (o_value o)) eqn:Hnan; [assumption|].
      apply add_to_groups_Forall; [assumption| |auto].
      exists o. split; [apply elem_of_app; right; now left|]. auto.
    + intros p. rewrite cnt_add_row, Hc. unfold occ_g.
      rewrite List.filter_app, length_app. simpl.
      destruct (matches p o); simpl; lia.
Qed.

Lemma cnt_zero (p : group_row) (gs : list group_row) :
  Forall (fun g => g_eqb p g = false) gs -> cnt p gs = 0.
Proof.
  induction 1 as [|g gs Hg _ IH]; simpl; [reflexivity|].
  rewrite Hg, IH. reflexivity.
Qed.

Lemma cnt_member (g : group_row) (gs : list group_row) :
  StronglySorted g_lt gs -> Forall g_valid gs -> g ∈ gs ->
  cnt g gs = counts g.
Proof.
  intros Hs. induction Hs as [|x gs Hs IH Hall]; intros Hval Hin.
  - now apply elem_of_nil in Hin.
  - apply Forall_cons in Hval as [Hx Hval]. simpl.
    apply elem_of_cons in Hin as [->|Hin].
    + rewrite g_eqb_refl by assumption. rewrite cnt_zero; [lia|].
      eapply Forall_impl; [exact Hall|]. intros y Hy.
      now apply g_lt_not_eqb in Hy as [? _].
    + rewrite Forall_forall in Hall. specialize (Hall g Hin).
      apply g_lt_not_eqb in Hall as [_ ->]. simpl. auto.
Qed.

Lemma cnt_positive (p : group_row) (gs : list group_row) :
  0 < cnt p gs -> exists g, g ∈ gs /\ g_eqb p g = true.
Proof.
  induction gs as [|g gs IH]; simpl; [lia|].
  destruct (g_eqb p g) eqn:E.
  - intros _. exists g. split; [now left|assumption].
  - intros H. destruct IH as (g' & Hin & Hg'); [lia|].
    exists g'. split; [now right|assumption].
Qed.

Lemma occ_g_same (p q : group_row) (rows : list observation) :
  g_eqb p q = true -> occ_g p rows = occ_g q rows.
Proof.
  intros Hpq. unfold occ_g. f_equal. apply List.filter_ext. intros o.
  unfold matches. destruct (o_unit o) as [u|]; [|reflexivity].
  destruct (g_eqb p (as_group _ _ u)) eqn:Hp,
           (g_eqb q (as_group (o_metric o) (o_value o) u)) eqn:Hq;
    try reflexivity.
  - rewrite (g_eqb_trans q p _) in Hq; auto using g_eqb_sym.
  - rewrite (g_eqb_trans p q _) in Hp; auto.
Qed.

End Grouping.

Section Selection.
Import PdfReader.


Lemma row_of_final_selection (m : string) (l : list group_row) :
  row_of m (final_selection l) = row_of m l.
Proof.
  unfold row_of. induction l as [|g l IH]; simpl; [reflexivity|].
  destruct (String.eqb (g_metric g) m) eqn:Eg; [reflexivity|].
  rewrite <- IH. clear IH. induction (final_selection l) as [|h t IHt]; simpl.
  - reflexivity.
  - destruct (String.eqb (g_metric h) (g_metric g)) eqn:Eh; simpl.
    + apply String.eqb_eq in Eh. rewrite Eh, Eg. exact IHt.
    + destruct (String.eqb (g_metric h) m); [reflexivity|exact IHt].
Qed.

Lemma insert_sorted_Forall (P : group_row -> Prop) (x : group_row)
    (l : list group_row) :
  P x -> Forall P l -> Forall P (insert_sorted x l).
Proof.
  intros Hx. induction 1 as [|y l Hy Hl IH]; simpl.
  - now constructor.
  - destruct (sorts_before y x); repeat constructor; assumption.
Qed.

Lemma insert_sorted_metric_sorted (x : group_row) (l : list group_row) :
  metric_sorted l -> metric_sorted (insert_sorted x l).
Proof.
  unfold metric_sorted. induction 1 as [|y l Hs IH Hall]; simpl.
  - repeat constructor.
  - destruct (sorts_before y x) eqn:Hb.
    + constructor; [assumption|]. apply insert_sorted_Forall; [|assumption].
      unfold sorts_before in Hb. apply orb_true_iff in Hb as [Hb|Hb].
      * now apply sltb_leb_true.
      * apply andb_true_iff in Hb as [Hb _]. apply String.eqb_eq in Hb.
        rewrite Hb. apply sleb_refl.
    + assert (Hxy : String.leb (g_metric x) (g_metric y) = true).
      { unfold sorts_before in Hb. apply orb_false_iff in Hb as [Hb _].
        rewrite sltb_leb in Hb. now apply negb_false_iff in Hb. }
      constructor; [now constructor|]. constructor; [assumption|].
      eapply Forall_impl; [exact Hall|]. intros z Hz. simpl in Hz.
      eapply sleb_trans; eassumption.
Qed.

Lemma df_grouped_sorted_metric_sorted (l : list group_row) :
  metric_sorted (df_grouped_sorted l).
Proof.
  induction l as [|x l IH]; simpl; [constructor|].
  now apply insert_sorted_metric_sorted.
Qed.

Lemma row_of_cons (m : string) (y : group_row) (l : list group_row) :
  row_of m (y :: l)
  = if String.eqb (g_metric y) m then Some y else row_of m l.
Proof. reflexivity. Qed.

Lemma row_of_insert_other (m : string) (x : group_row) (l : list group_row) :
  String.eqb (g_metric x) m = false ->
  row_of m (insert_sorted x l) = row_of m l.
Proof.
  intros Hx. induction l as [|y l IH]; cbn [insert_sorted].
  - rewrite row_of_cons. now rewrite Hx.
  - destruct (sorts_before y x); rewrite !row_of_cons.
    + now rewrite IH.
    + now rewrite Hx.
Qed.

Lemma row_of_above (m : string) (y : group_row) (l : list group_row) :
  String.ltb m (g_metric y) = true ->
  Forall (fun z => String.leb (g_metric y) (g_metric z) = true) l ->
  row_of m l = None.
Proof.
  intros Hm. induction 1 as [|z l Hz _ IH]; [reflexivity|].
  rewrite row_of_cons.
  destruct (String.eqb (g_metric z) m) eqn:E; [|exact IH].
  apply String.eqb_eq in E. rewrite E in Hz.
  rewrite sltb_leb, Hz in Hm. discriminate.
Qed.

Lemma row_of_insert_same (m : string) (x : group_row) (l : list group_row) :
  metric_sorted l -> g_metric x = m ->
  row_of m (insert_sorted x l)
  = match row_of m l with
    | Some y => if Nat.ltb (counts x) (counts y) then Some y else Some x
    | None => Some x
    end.
Proof.
  intros Hs Hx. unfold metric_sorted in Hs.
  induction Hs as [|y l Hs IH Hall]; cbn [insert_sorted].
  - rewrite row_of_cons, Hx, String.eqb_refl. reflexivity.
  - unfold sorts_before. rewrite Hx, (row_of_cons m y l).
    destruct (String.eqb (g_metric y) m) eqn:Ey.
    + apply String.eqb_eq in Ey. rewrite Ey, sltb_irrefl. cbn [orb andb].
      destruct (Nat.ltb (counts x) (counts y)); rewrite row_of_cons.
      * now rewrite Ey, String.eqb_refl.
      * now rewrite Hx, String.eqb_refl.
    + rewrite orb_false_r.
      destruct (String.ltb (g_metric y) m) eqn:Hlt; rewrite row_of_cons.
      * rewrite Ey. exact IH.
      * rewrite Hx, String.eqb_refl.
        rewrite (row_of_above m y l); [reflexivity| |assumption].
        now apply sltb_connected.
Qed.

Lemma row_of_sorted (m : string) (l : list group_row) :
  row_of m (df_grouped_sorted l) = best_of m l.
Proof.
  induction l as [|x l IH]; simpl; [reflexivity|].
  destruct (String.eqb (g_metric x) m) eqn:Ex.
  - apply String.eqb_eq in Ex.
    rewrite row_of_insert_same, IH;
      [reflexivity|apply df_grouped_sorted_metric_sorted|assumption].
  - rewrite row_of_insert_other, IH by assumption. reflexivity.
Qed.

Lemma best_of_None (m : string) (l : list group_row) :
  best_of m l = None -> Forall (fun g => g_metric g <> m) l.
Proof.
  induction l as [|x l IH]; simpl; [constructor|].
  destruct (String.eqb_spec (g_metric x) m) as [E|E].
  - destruct (best_of m l) as [y|]; [|discriminate].
    destruct (Nat.ltb (counts x) (counts y)); discriminate.
  - intros H. constructor; auto.
Qed.

Lemma best_of_Some (m : string) (l : list group_row) (g : group_row) :
  StronglySorted g_lt l -> best_of m l = Some g ->
  g ∈ l /\ g_metric g = m
  /\ forall g', g' ∈ l -> g_metric g' = m ->
       counts g' <= counts g
       /\ (counts g' = counts g -> g' = g \/ g_lt g g').
Proof.
  intros Hs. revert g. induction Hs as [|x l Hs IH Hall]; intros g; simpl.
  - discriminate.
  - destruct (String.eqb_spec (g_metric x) m) as [Ex|Ex].
    + destruct (best_of m l) as [y|] eqn:Ey.
      * destruct (IH y eq_refl) as (Hin & Hm & Hmax).
        destruct (Nat.ltb (counts x) (counts y)) eqn:Hc; intros [= <-].
        -- apply Nat.ltb_lt in Hc. split; [now right|]. split; [assumption|].
           intros g' Hg' Hm'. apply elem_of_cons in Hg' as [->|Hg'].
           ++ split; lia.
           ++ now apply Hmax.
        -- apply Nat.ltb_ge in Hc. split; [now left|]. split; [assumption|].
           intros g' Hg' Hm'. apply elem_of_cons in Hg' as [->|Hg'].
           ++ split; [lia|auto].
           ++ destruct (Hmax g' Hg' Hm') as [Hle _]. split; [lia|].
              intros _. right. rewrite Forall_forall in Hall. now apply Hall.
      * intros [= <-]. split; [now left|]. split; [assumption|].
        intros g' Hg' Hm'. apply elem_of_cons in Hg' as [->|Hg'].
        -- split; [lia|auto].
        -- apply best_of_None in Ey. rewrite Forall_forall in Ey.
           now destruct (Ey g' Hg').
    + intros Hb. destruct (IH g Hb) as (Hin & Hm & Hmax).
      split; [now right|]. split; [assumption|].
      intros g' Hg' Hm'. apply elem_of_cons in Hg' as [->|Hg'];
        [contradiction|now apply Hmax].
Qed.

Lemma occurrences_occ_g (o : observation) (u : string)
    (rows : list observation) :
  o_unit o = Some u ->
  occurrences o rows = occ_g (as_group (o_metric o) (o_value o) u) rows.
Proof.
  intros Hu. unfold occurrences, occ_g. f_equal. apply List.filter_ext.
  intros x. unfold same_group, matches, g_eqb, key_eqb. simpl. rewrite Hu.
  destruct (o_unit x) as [ux|].
  - f_equal. destruct (String.eqb_spec u ux) as [->|Hne].
    + now apply bool_decide_eq_true.
    + apply bool_decide_eq_false. congruence.
  - rewrite andb_false_r. reflexivity.
Qed.

(** The record of metric [m] in the returned list. *)
Lemma final_df_elem (sel : list group_row) (r : metric_record) :
  r ∈ final_df sel ->
  r_metric r ∈ metrics_priority
  /\ match row_of (r_metric r) sel with
     | Some g => r_value r = g_value g /\ r_unit r = g_unit g
     | None => r_value r = PrimFloat.nan /\ r_unit r = "nan"
     end.
Proof.
  unfold final_df. intros Hr. apply list_elem_of_fmap in Hr as (m & -> & Hm).
  destruct (row_of m sel) as [g|] eqn:E; simpl; rewrite E; auto.
Qed.

Lemma selected_row (quarter : string) (extracted_data : list observation)
    (r : metric_record) :
  r ∈ metrics_list quarter extracted_data ->
  r_metric r ∈ metrics_priority
  /\ match best_of (r_metric r)
             (df_grouped (df_filtered quarter extracted_data)) with
     | Some g => r_value r = g_value g /\ r_unit r = g_unit g
     | None => r_value r = PrimFloat.nan /\ r_unit r = "nan"
     end.
Proof.
  unfold metrics_list. destruct extracted_data as [|o0 data].
  - intros H. now apply elem_of_nil in H.
  - intros H. apply final_df_elem in H.
    now rewrite row_of_final_selection, row_of_sorted in H.
Qed.

Lemma group_of_row (rows : list observation) (o : observation) (u : string) :
  o ∈ rows -> o_unit o = Some u -> PyFloat.is_nan (o_value o) = false ->
  exists g, g ∈ df_grouped rows
            /\ g_eqb (as_group (o_metric o) (o_value o) u) g = true.
Proof.
  intros Hin Hu Hnan. apply cnt_positive.
  destruct (df_grouped_inv rows) as (_ & _ & _ & ->).
  unfold occ_g. apply list_elem_of_In in Hin.
  assert (Hf : In o (List.filter
                       (matches (as_group (o_metric o) (o_value o) u)) rows)).
  { apply filter_In. split; [assumption|]. unfold matches. rewrite Hu.
    apply g_eqb_refl. now apply is_nan_false. }
  destruct (List.filter _ rows); [contradiction|simpl; lia].
Qed.

End Selection.

(** C6, amended. When the filtered observations of a metric all carry
    a unit and a value, and there is one at least, the record of the
    metric names the (value, unit) group with the highest number of
    occurrences; of several groups with that number it names the one
    with the smallest value (then the smallest unit), which is the
    order in which the grouping lists them. *)
Theorem most_frequent_group_selected (quarter : string)
    (extracted_data : list PdfReader.observation)
    (r : PdfReader.metric_record) :
  let rows := PdfReader.df_filtered quarter extracted_data in
  r ∈ PdfReader.metrics_list quarter extracted_data ->
  (forall o, o ∈ rows -> PdfReader.o_metric o = PdfReader.r_metric r ->
             PdfReader.has_keys o) ->
  (exists o, o ∈ rows /\ PdfReader.o_metric o = PdfReader.r_metric r) ->
  exists o,
    o ∈ rows
    /\ PdfReader.o_metric o = PdfReader.r_metric r
    /\ PdfReader.o_value o = PdfReader.r_value r
    /\ PdfReader.o_unit o = Some (PdfReader.r_unit r)
    /\ forall o', o' ∈ rows ->
         PdfReader.o_metric o' = PdfReader.r_metric r ->
         PdfReader.occurrences o' rows <= PdfReader.occurrences o rows
         /\ (PdfReader.occurrences o' rows = PdfReader.occurrences o rows ->
             PdfReader.same_group o o' = true \/ PdfReader.key_precedes o o').
Proof.
  intros rows Hr Hkeys (o0 & Ho0 & Hm0).
  apply selected_row in Hr as [_ Hr]. fold rows in Hr.
  destruct (df_grouped_inv rows) as (Hsorted & Hvalid & Hfrom & Hcnt).
  assert (Hgroup : forall o', o' ∈ rows ->
            PdfReader.o_metric o' = PdfReader.r_metric r ->
            exists g' u', PdfReader.o_unit o' = Some u'
              /\ g' ∈ PdfReader.df_grouped rows
              /\ g_eqb (PdfReader.as_group (PdfReader.o_metric o')
                          (PdfReader.o_value o') u') g' = true
              /\ PdfReader.occurrences o' rows = PdfReader.counts g').
  { intros o' Ho' Hm'. destruct (Hkeys o' Ho' Hm') as [[u' Hu'] Hnan'].
    destruct (group_of_row rows o' u' Ho' Hu' Hnan') as (g' & Hg' & He').
    exists g', u'. repeat split; try assumption.
    rewrite (occurrences_occ_g o' u' rows Hu'), (occ_g_same _ g' rows He').
    rewrite <- Hcnt. now apply cnt_member. }
  destruct (best_of (PdfReader.r_metric r) (PdfReader.df_grouped rows))
    as [g|] eqn:Hbest.
  - destruct Hr as [Hv Hu].
    destruct (best_of_Some _ _ _ Hsorted Hbest) as (Hin & Hm & Hmax).
    rewrite Forall_forall in Hfrom.
    destruct (Hfrom g Hin) as (o & Ho & Hom & Hov & Hou).
    assert (Hocc : PdfReader.occurrences o rows = PdfReader.counts g).
    { rewrite (occurrences_occ_g o _ rows Hou), Hom, Hov.
      change (occ_g g rows = PdfReader.counts g).
      rewrite <- Hcnt. now apply cnt_member. }
    exists o. split; [assumption|]. split; [congruence|].
    split; [congruence|]. split; [congruence|].
    intros o' Ho' Hm'.
    destruct (Hgroup o' Ho' Hm') as (g' & u' & Hu' & Hg' & He' & Hocc').
    apply g_eqb_iff in He' as (Hgm & Hgv & Hgu). simpl in Hgm, Hgv, Hgu.
    destruct (Hmax g' Hg') as [Hle Htie]; [congruence|].
    rewrite Hocc, Hocc'. split; [assumption|]. intros Heq.
    destruct (Htie Heq) as [->|Hlt].
    + left. unfold PdfReader.same_group.
      rewrite Hom, Hm', Hm, String.eqb_refl, Hov, Hou, Hu', Hgu.
      rewrite (feqb_sym _ _ Hgv). simpl. now apply bool_decide_eq_true.
    + right. apply g_lt_iff in Hlt as [Hlt|(_ & [Hlt|(Hev & Hlt)])].
      * rewrite Hm, <- Hgm, Hm', sltb_irrefl in Hlt. discriminate.
      * left. rewrite Hov. eapply fltb_feqb_trans; [exact Hlt|].
        now apply feqb_sym.
      * right. rewrite Hov. split.
        -- eapply feqb_trans; [exact Hev|]. now apply feqb_sym.
        -- exists (PdfReader.g_unit g), u'.
           split; [exact Hou|]. split; [exact Hu'|]. now rewrite Hgu.
  - exfalso. destruct (Hgroup o0 Ho0 Hm0) as (g' & u' & _ & Hg' & He' & _).
    apply best_of_None in Hbest. rewrite Forall_forall in Hbest.
    apply (Hbest g' Hg'). apply g_eqb_iff in He' as (Hgm & _).
    simpl in Hgm. congruence.
Qed.

Lemma most_frequent_group_selected_witness :
  exists o,
    o ∈ PdfReader.df_filtered "Q3" tie_example
    /\ PdfReader.o_metric o = "Net income"
    /\ PdfReader.o_value o = 3%float
    /\ PdfReader.o_unit o = Some "B".
Proof.
  destruct (most_frequent_group_selected "Q3" tie_example
              {| PdfReader.r_metric := "Net income";
                 PdfReader.r_value := 3; PdfReader.r_unit := "B" |})
    as (o & Hin & Hm & Hv & Hu & _).
  - apply list_elem_of_In. vm_compute. tauto.
  - intros o Ho _. apply list_elem_of_In in Ho. vm_compute in Ho.
    destruct Ho as [<-|[<-|[]]]; (split; [eexists; reflexivity|reflexivity]).
  - eexists. split; [left|reflexivity].
  - exists o. auto.
Defined.

(** C6, as stated, fails: with two groups of one occurrence each, the
    group seen first in the input is 5.0 B, and the record returned
    for the metric is 3.0 B. *)
Lemma tie_is_not_broken_by_first_seen :
  PdfReader.df_filtered "Q3" tie_example = tie_example
  /\ map (fun o => PdfReader.occurrences o tie_example) tie_example = [1; 1]
  /\ option_map PdfReader.o_value
       (PdfReader.first_seen_best "Net income" tie_example tie_example)
     = Some 5%float
  /\ nth_error (PdfReader.metrics_list "Q3" tie_example) 3
     = Some {| PdfReader.r_metric := "Net income";
               PdfReader.r_value := 3; PdfReader.r_unit := "B" |}.
Proof. repeat split; vm_compute; reflexivity. Qed.

(** C3 at the failing input: every one of the five metrics is listed
    whatever was observed, and a metric without any observation left is
    listed with a NaN value and the unit "nan". *)
Theorem unobserved_metric_is_listed_with_nan :
  (forall quarter extracted_data,
     extracted_data <> [] ->
     map PdfReader.r_metric (PdfReader.metrics_list quarter extracted_data)
     = PdfReader.metrics_priority)
  /\ (forall quarter extracted_data r,
        r ∈ PdfReader.metrics_list quarter extracted_data ->
        (forall o, o ∈ PdfReader.df_filtered quarter extracted_data ->
                   PdfReader.o_metric o <> PdfReader.r_metric r) ->
        PyFloat.is_nan (PdfReader.r_value r) = true
        /\ PdfReader.r_unit r = "nan")
  /\ PdfReader.metrics_list "Q3" lone_ratio_example
     = [ {| PdfReader.r_metric := "CET1 Capital Ratio";
            PdfReader.r_value := 13.6; PdfReader.r_unit := "%" |};
         {| PdfReader.r_metric := "Tangible book value per share";
            PdfReader.r_value := PrimFloat.nan; PdfReader.r_unit := "nan" |};
         {| PdfReader.r_metric := "Book value per share";
            PdfReader.r_value := PrimFloat.nan; PdfReader.r_unit := "nan" |};
         {| PdfReader.r_metric := "Net income";
            PdfReader.r_value := PrimFloat.nan; PdfReader.r_unit := "nan" |};
         {| PdfReader.r_metric := "Revenues";
            PdfReader.r_value := PrimFloat.nan; PdfReader.r_unit := "nan" |} ].
Proof.
  split; [|split].
  - intros quarter [|o data] Hne; [congruence|].
    unfold PdfReader.metrics_list, PdfReader.final_df.
    rewrite map_map. simpl.
    repeat match goal with
           | |- context [PdfReader.row_of ?m ?l] => destruct (PdfReader.row_of m l)
           end; reflexivity.
  - intros quarter extracted_data r Hr Hnone.
    apply selected_row in Hr as [_ Hr].
    destruct (df_grouped_inv (PdfReader.df_filtered quarter extracted_data))
      as (Hsorted & _ & Hfrom & _).
    destruct (best_of _ _) as [g|] eqn:Hbest.
    + exfalso.
      destruct (best_of_Some _ _ _ Hsorted Hbest) as (Hin & Hm & _).
      rewrite Forall_forall in Hfrom.
      destruct (Hfrom g Hin) as (o & Ho & Hom & _).
      apply (Hnone o Ho). congruence.
    + destruct Hr as [-> ->]. split; reflexivity.
  - vm_compute. reflexivity.
Qed.
